(** * The notebook 05_iqpe_from_vqe: IQPE seeded with a VQE output state

    A model of [tutorials/algorithms/05_iqpe_from_vqe.ipynb].  The notebook
    builds a two-qubit operator from Pauli primitives, calls three solvers
    of the Qiskit Aqua library one after the other and prints what they
    return.  The development has three parts:

    - the operator algebra used by cell 2 ([H2_op]) and its matrix;
    - the f-string formatting [{x:.5f}] used by every [print];
    - the seven code cells as a state-and-exception program over a
      namespace, an object table and a library that is left abstract.

    The definitions come first, the properties after them. *)

From Stdlib Require Import QArith Qabs Qround Lqa Reals Lra Lia ZArith NArith String Ascii List.
From Stdlib Require Import DecimalString DecimalN.
From stdpp Require Import gmap strings list.

(** ** Pauli primitives

    The library offers four one-qubit primitives; cell 1 imports three of
    them ([from qiskit.aqua.operators import I, X, Z]).  They live in a
    module of their own because the names [I] and [Z] are taken. *)

Module Pauli.
Inductive t : Set := I | X | Y | Z.

Definition eqb (p q : t) : bool :=
  match p, q with
  | I, I | X, X | Y, Y | Z, Z => true
  | _, _ => false
  end.

End Pauli.

(** ** Operators

    An operator is a sum of weighted Pauli strings, the normal form the
    library keeps for [c * P], [A ^ B] and [A + B]. *)

Record term : Set := Term { coeff : Q; paulis : list Pauli.t }.

Definition operator : Set := list term.

(** A primitive as imported: weight one, one qubit. *)
Definition prim (p : Pauli.t) : operator := [Term 1 [p]].

(** [c * A]: every weight is multiplied by the scalar.  The product is
    the exact one; the library's is the floating-point product, which is
    the same where the other factor is the weight 1 of a primitive, as it
    is in cell 2. *)
Definition op_mul (c : Q) (A : operator) : operator :=
  map (fun t => Term (c * coeff t) (paulis t)) A.

(** [A ^ B]: tensor product, weights multiply and strings concatenate.
    On two weighted strings, the operands of every [^] of cell 2, this is
    the string the library builds; on sums the library keeps the product
    unexpanded. *)
Definition op_tensor (A B : operator) : operator :=
  flat_map (fun a => map (fun b => Term (coeff a * coeff b) (paulis a ++ paulis b)) B) A.

(** [A + B]: the summands are kept in the order written.  Cell 2 adds
    five different strings over two qubits; the library would merge equal
    strings and refuse operands over different numbers of qubits. *)
Definition op_add (A B : operator) : operator := A ++ B.

Declare Scope op_scope.
Delimit Scope op_scope with op.
Bind Scope op_scope with operator.
Notation "c * A" := (op_mul c%Q A%op) : op_scope.
Notation "A ^ B" := (op_tensor A%op B%op) : op_scope.
Notation "A + B" := (op_add A%op B%op) : op_scope.

(** Cell 2.  Python gives [*] precedence over [^], so [c * I ^ I] inside
    each pair of parentheses is [(c * I) ^ I]; the parentheses below say
    so.  The floating-point literals are read as the decimal fractions
    they spell. *)
Definition H2_op : operator :=
  (((-1.052373245772859 * prim Pauli.I) ^ prim Pauli.I) +
   ((0.39793742484318045 * prim Pauli.I) ^ prim Pauli.Z) +
   ((-0.39793742484318045 * prim Pauli.Z) ^ prim Pauli.I) +
   ((-0.01128010425623538 * prim Pauli.Z) ^ prim Pauli.Z) +
   ((0.18093119978423156 * prim Pauli.X) ^ prim Pauli.X))%op.

(** Number of qubits an operator acts on, when all its strings agree. *)
Definition num_qubits (A : operator) : option nat :=
  match A with
  | [] => None
  | t :: ts =>
      let n := length (paulis t) in
      if forallb (fun u => Nat.eqb (length (paulis u)) n) ts then Some n else None
  end.

Definition uses_only (allowed : list Pauli.t) (A : operator) : bool :=
  forallb (fun t => forallb (fun p => existsb (Pauli.eqb p) allowed) (paulis t)) A.

(** ** Matrices

    Entries are Gaussian rationals (real part, imaginary part), because
    the primitive [Y] is not real. *)

Definition cq : Set := (Q * Q)%type.

Definition cq_add (x y : cq) : cq := (fst x + fst y, snd x + snd y)%Q.
Definition cq_mul (x y : cq) : cq :=
  (fst x * fst y - snd x * snd y, fst x * snd y + snd x * fst y)%Q.
Definition cq_scale (c : Q) (x : cq) : cq := (c * fst x, c * snd x)%Q.
Definition cq_red (x : cq) : cq := (Qred (fst x), Qred (snd x)).

Definition matrix : Set := list (list cq).

Definition pauli_matrix (p : Pauli.t) : matrix :=
  match p with
  | Pauli.I => [[(1, 0); (0, 0)]; [(0, 0); (1, 0)]]
  | Pauli.X => [[(0, 0); (1, 0)]; [(1, 0); (0, 0)]]
  | Pauli.Y => [[(0, 0); (0, -1)]; [(0, 1); (0, 0)]]
  | Pauli.Z => [[(1, 0); (0, 0)]; [(0, 0); (-1, 0)]]
  end%Q.

(** Kronecker product: the block at row [i], column [j] is [A i j * B]. *)
Definition kron (A B : matrix) : matrix :=
  flat_map (fun ra => map (fun rb => flat_map (fun a => map (cq_mul a) rb) ra) B) A.

Definition mat_add (A B : matrix) : matrix :=
  zip_with (zip_with cq_add) A B.

Definition mat_scale (c : Q) (A : matrix) : matrix :=
  map (map (cq_scale c)) A.

Definition mat_zero (n : nat) : matrix := repeat (repeat (0, 0)%Q n) n.

Fixpoint string_matrix (ps : list Pauli.t) : matrix :=
  match ps with
  | [] => [[(1, 0)%Q]]
  | p :: ps' => kron (pauli_matrix p) (string_matrix ps')
  end.

Definition term_matrix (t : term) : matrix :=
  mat_scale (coeff t) (string_matrix (paulis t)).

(** The matrix of a sum of strings over [n] qubits (dimension [2 ^ n]). *)
Definition to_matrix (n : nat) (A : operator) : matrix :=
  map (map cq_red)
    (fold_right (fun t acc => mat_add (term_matrix t) acc) (mat_zero (2 ^ n)) A).

Definition is_real (M : matrix) : bool :=
  forallb (forallb (fun z => Qeq_bool (snd z) 0)) M.

Definition real_matrix (M : matrix) : list (list R) :=
  map (map (fun z => Q2R (fst z))) M.

(** ** Eigenvalues of a real matrix *)

Definition dot (r v : list R) : R :=
  fold_right Rplus 0%R (zip_with Rmult r v).

Definition mat_vec (M : list (list R)) (v : list R) : list R :=
  map (fun r => dot r v) M.

Definition is_eigenpair (M : list (list R)) (ev : R) (v : list R) : Prop :=
  length v = length M /\
  (exists x, In x v /\ x <> 0%R) /\
  mat_vec M v = map (Rmult ev) v.

(** What [NumPyMinimumEigensolver.compute_minimum_eigenvalue] computes for
    a real symmetric matrix: an eigenvalue below every other one. *)
Definition is_min_eigenvalue (M : list (list R)) (ev : R) : Prop :=
  (exists v, is_eigenpair M ev v) /\
  (forall mu w, is_eigenpair M mu w -> (ev <= mu)%R).

(** An eigenvector with complex entries, given by its real and imaginary
    parts, of a real matrix for a real eigenvalue. *)
Definition is_complex_eigenpair (M : list (list R)) (ev : R) (u t : list R) : Prop :=
  length u = length M /\ length t = length M /\
  (exists x, (In x u \/ In x t) /\ x <> 0%R) /\
  mat_vec M u = map (Rmult ev) u /\
  mat_vec M t = map (Rmult ev) t.

(** A matrix that couples the first basis state with the last and the two
    middle ones with each other, as the matrix of [H2_op] does.  Its
    spectrum is that of two 2x2 blocks. *)
Definition two_blocks (p q1 q2 e : R) : list (list R) :=
  [[p; 0; 0; e]; [0; q1; e; 0]; [0; e; q2; 0]; [e; 0; 0; p]]%R.

Definition inner_mid (q1 q2 : R) : R := ((q1 + q2) / 2)%R.
Definition inner_half (q1 q2 : R) : R := ((q2 - q1) / 2)%R.
Definition inner_radius (q1 q2 e : R) : R :=
  sqrt (inner_half q1 q2 * inner_half q1 q2 + e * e).

(** The lower eigenvalue of the middle block. *)
Definition inner_low (q1 q2 e : R) : R :=
  (inner_mid q1 q2 - inner_radius q1 q2 e)%R.

(** The four distinct entries of the matrix of [H2_op]. *)
Definition H2_outer : Q := -53182667501454719 # 50000000000000000.
Definition H2_inner1 : Q := -45924199780074613 # 25000000000000000.
Definition H2_inner2 : Q := -766307161969571 # 3125000000000000.
Definition H2_cross : Q := 4523279994605789 # 25000000000000000.

(** The lowest eigenvalue of [H2_op], in closed form. *)
Definition H2_ground : R :=
  inner_low (Q2R H2_inner1) (Q2R H2_inner2) (Q2R H2_cross).

(** ** Formatting: the f-string conversion [{x:.5f}]

    The value is rounded to five decimals, ties to the even neighbour, and
    printed with a minus sign when it is negative (also when it then
    rounds to zero).  The values formatted are finite floating-point
    numbers, each taken as the rational it is; infinities, NaN and the
    negative zero are not among the rationals. *)

Definition round_half_even (x : Q) : Z :=
  let f := Qfloor x in
  match Qcompare (x - inject_Z f) (1 # 2) with
  | Lt => f
  | Gt => (f + 1)%Z
  | Eq => if Z.even f then f else (f + 1)%Z
  end.

Definition digits (n : Z) : string :=
  NilZero.string_of_uint (N.to_uint (Z.to_N n)).

Definition digit (d : Z) : ascii := ascii_of_nat (48 + Z.to_nat d).

Definition frac5 (k : Z) : string :=
  String (digit (k / 10000 mod 10))
    (String (digit (k / 1000 mod 10))
       (String (digit (k / 100 mod 10))
          (String (digit (k / 10 mod 10))
             (String (digit (k mod 10)) EmptyString)))).

(** [fixed5 neg n] prints [n] hundred-thousandths. *)
Definition fixed5 (neg : bool) (n : Z) : string :=
  ((if neg then "-" else "") ++
   digits (n / 100000) ++ "." ++ frac5 (n mod 100000))%string.

Definition is_negative (x : Q) : bool :=
  match Qcompare x 0 with Lt => true | _ => false end.

Definition format_5f (x : Q) : string :=
  fixed5 (is_negative x) (round_half_even (Qabs x * 100000)).

(** Characters a decimal numeral is made of. *)
Definition is_digit (c : ascii) : bool :=
  (48 <=? nat_of_ascii c)%nat && (nat_of_ascii c <=? 57)%nat.

Fixpoint all_digits (s : string) : bool :=
  match s with
  | EmptyString => true
  | String c s' => is_digit c && all_digits s'
  end.

(** ** Values, objects and the library

    The notebook's own code is a handful of assignments; everything else
    is done by Qiskit Aqua.  The library is a parameter of the model: it
    may answer a request with a value or with an exception, and it has a
    state of its own (where the random seed lives).  Loading a module and
    fetching a name from it are requests too: an import runs the module's
    code and fails when the module or the name is missing. *)

Definition exn : Set := string.

Inductive outcome (A : Type) : Type :=
| Ok (a : A)
| Raise (e : exn).
Arguments Ok {A} a.
Arguments Raise {A} e.

Definition addr : Set := nat.

(** The classes the notebook instantiates. *)
Inductive class : Set :=
| NumPyMinimumEigensolver
| TwoLocal
| SPSA
| QuantumInstance
| VQE
| VarFormBased
| IQPE.

#[warnings="-register-all"]
Inductive value : Set :=
| VNone
| VInt (n : Z)
| VFloat (x : Q)
| VComplex (z : cq)
| VStr (s : string)
| VList (vs : list value)
| VOp (A : operator)
| VClass (c : class)
| VGlobal (path : string)
| VRef (a : addr).

(** What a solver returns; the notebook reads these two attributes. *)
Record result : Set := Result { eigenvalue : cq; optimal_parameters : value }.

(** The object table records how each library object came to be. *)
Inductive object : Set :=
| Instance (c : class) (args : list value) (kwargs : list (string * value))
| Backend (name : string)
| Solved (r : result).

Inductive request : Set :=
| ImportModule (modname : string)
| ImportFrom (modname name : string)
| Construct (c : class) (args : list value) (kwargs : list (string * value))
| GetBackend (name : string)
| ComputeMinimumEigenvalue (solver : addr) (A : operator)
| SetAttr (path attribute : string) (v : value)
| Magic (name : string).

Inductive event : Set :=
| EImport (name : string)
| EAssign (name : string) (v : value)
| ELib (req : request) (res : outcome value)
| EGetAttr (a : addr) (attribute : string)
| EPrint (line : string).

Record library (world : Type) : Type := Library {
  lib_import : string -> world -> outcome unit * world;
  lib_import_from : string -> string -> world -> outcome unit * world;
  lib_construct :
    class -> list value -> list (string * value) -> list object -> world ->
    outcome unit * world;
  lib_get_backend : string -> world -> outcome unit * world;
  lib_solve : addr -> operator -> list object -> world -> outcome result * world;
  lib_set_attr : string -> string -> value -> world -> outcome unit * world;
  lib_magic : string -> world -> outcome unit * world
}.
Arguments lib_import {world} _ _ _.
Arguments lib_import_from {world} _ _ _ _.
Arguments lib_construct {world} _ _ _ _ _ _.
Arguments lib_get_backend {world} _ _ _.
Arguments lib_solve {world} _ _ _ _ _.
Arguments lib_set_attr {world} _ _ _ _ _.
Arguments lib_magic {world} _ _ _.

(** The kernel state: the global namespace, the object table, the state of
    the library, and the log of everything the cells did, each entry with
    the number of the cell that did it. *)
Record state (world : Type) : Type := State {
  ns : gmap string value;
  heap : list object;
  lib_state : world;
  trace : list (nat * event);
  cell : nat
}.
Arguments State {world} _ _ _ _ _.
Arguments ns {world} _.
Arguments heap {world} _.
Arguments lib_state {world} _.
Arguments trace {world} _.
Arguments cell {world} _.

Definition initial {world : Type} (w : world) : state world :=
  State ∅ [] w [] 0.

(** Lines written to standard output. *)
Definition stdout {world : Type} (s : state world) : list string :=
  flat_map (fun ke => match snd ke with EPrint l => [l] | _ => [] end) (trace s).

(** ** The notebook monad: state and exceptions

    There is a [raise] and no handler: the notebook has no [try]. *)

Definition nb (world A : Type) : Type := state world -> outcome A * state world.

Definition ret {world A : Type} (a : A) : nb world A := fun s => (Ok a, s).

Definition bind {world A B : Type} (m : nb world A) (k : A -> nb world B) : nb world B :=
  fun s =>
    match m s with
    | (Ok a, s') => k a s'
    | (Raise e, s') => (Raise e, s')
    end.

Definition raise {world A : Type} (e : exn) : nb world A := fun s => (Raise e, s).

Declare Scope nb_scope.
Delimit Scope nb_scope with nb.
Notation "x <- m ;; k" := (bind m (fun x => k))
  (at level 100, m at next level, right associativity) : nb_scope.
Notation "m ;; k" := (bind m (fun _ => k))
  (at level 100, right associativity) : nb_scope.
Open Scope nb_scope.

Definition log {world : Type} (ev : event) : nb world unit :=
  fun s => (Ok tt, State (ns s) (heap s) (lib_state s) (trace s ++ [(cell s, ev)]) (cell s)).

Definition load {world : Type} (x : string) : nb world value :=
  fun s =>
    match ns s !! x with
    | Some v => (Ok v, s)
    | None => (Raise "NameError"%string, s)
    end.

Definition bind_name {world : Type} (x : string) (v : value) : nb world unit :=
  fun s => (Ok tt, State (<[x := v]> (ns s)) (heap s) (lib_state s) (trace s) (cell s)).

Definition store {world : Type} (x : string) (v : value) : nb world unit :=
  bind_name x v ;; log (EAssign x v).

Definition deref {world : Type} (a : addr) : nb world object :=
  fun s =>
    match nth_error (heap s) a with
    | Some o => (Ok o, s)
    | None => (Raise "ReferenceError"%string, s)
    end.

(** A request that yields a new object: the library answers, the answer is
    logged, and on success the object gets the next free address. *)
Definition lib_new {world X : Type} (req : request)
    (ask : list object -> world -> outcome X * world) (mk : X -> object) :
    nb world value :=
  fun s =>
    match ask (heap s) (lib_state s) with
    | (Ok x, w) =>
        let a := length (heap s) in
        (Ok (VRef a),
         State (ns s) (heap s ++ [mk x]) w
               (trace s ++ [(cell s, ELib req (Ok (VRef a)))]) (cell s))
    | (Raise e, w) =>
        (Raise e,
         State (ns s) (heap s) w (trace s ++ [(cell s, ELib req (Raise e))]) (cell s))
    end.

(** A request made for its effect. *)
Definition lib_do {world : Type} (req : request)
    (ask : world -> outcome unit * world) : nb world value :=
  fun s =>
    match ask (lib_state s) with
    | (Ok _, w) =>
        (Ok VNone,
         State (ns s) (heap s) w (trace s ++ [(cell s, ELib req (Ok VNone))]) (cell s))
    | (Raise e, w) =>
        (Raise e,
         State (ns s) (heap s) w (trace s ++ [(cell s, ELib req (Raise e))]) (cell s))
    end.

(** ** Expressions and statements

    One combinator per Python construct the notebook uses, each evaluating
    its operands from left to right. *)

Section Cells.
Context {world : Type}.
Variable L : library world.

(** Floating-point subtraction. *)
Variable fsub : Q -> Q -> Q.

Abbreviation expr := (nb world value).

Definition name (x : string) : expr := load x.
Definition num (x : Q) : expr := ret (VFloat x).
Definition int (n : Z) : expr := ret (VInt n).
Definition str (s : string) : expr := ret (VStr s).

Fixpoint eval_args (es : list expr) : nb world (list value) :=
  match es with
  | [] => ret []
  | e :: es' => v <- e ;; vs <- eval_args es' ;; ret (v :: vs)
  end.

Fixpoint eval_kwargs (kes : list (string * expr)) : nb world (list (string * value)) :=
  match kes with
  | [] => ret []
  | (k, e) :: kes' => v <- e ;; kvs <- eval_kwargs kes' ;; ret ((k, v) :: kvs)
  end.

Definition list_of (es : list expr) : expr :=
  vs <- eval_args es ;; ret (VList vs).

(** [c * A], [A ^ B] and [A + B] on operators; [x - y] on floats. *)
Definition mul (e1 e2 : expr) : expr :=
  a <- e1 ;; b <- e2 ;;
  match a, b with
  | VFloat c, VOp A => ret (VOp (op_mul c A))
  | _, _ => raise "TypeError"%string
  end.

Definition xor (e1 e2 : expr) : expr :=
  a <- e1 ;; b <- e2 ;;
  match a, b with
  | VOp A, VOp B => ret (VOp (op_tensor A B))
  | _, _ => raise "TypeError"%string
  end.

Definition add (e1 e2 : expr) : expr :=
  a <- e1 ;; b <- e2 ;;
  match a, b with
  | VOp A, VOp B => ret (VOp (op_add A B))
  | _, _ => raise "TypeError"%string
  end.

Definition sub (e1 e2 : expr) : expr :=
  a <- e1 ;; b <- e2 ;;
  match a, b with
  | VFloat x, VFloat y => ret (VFloat (fsub x y))
  | _, _ => raise "TypeError"%string
  end.

(** Attribute access: [.eigenvalue] and [.optimal_parameters] on a solver
    result, [.real] on a number. *)
Definition attr (e : expr) (a : string) : expr :=
  v <- e ;;
  match v with
  | VRef p =>
      o <- deref p ;;
      match o with
      | Solved r =>
          if String.eqb a "eigenvalue" then
            log (EGetAttr p a) ;; ret (VComplex (eigenvalue r))
          else if String.eqb a "optimal_parameters" then
            log (EGetAttr p a) ;; ret (optimal_parameters r)
          else raise "AttributeError"%string
      | _ => raise "AttributeError"%string
      end
  | VComplex z =>
      if String.eqb a "real" then ret (VFloat (fst z))
      else raise "AttributeError"%string
  | VFloat x =>
      if String.eqb a "real" then ret (VFloat x)
      else raise "AttributeError"%string
  | _ => raise "AttributeError"%string
  end.

(** Calling a class makes an instance. *)
Definition call (f : expr) (args : list expr) (kwargs : list (string * expr)) : expr :=
  fv <- f ;; av <- eval_args args ;; kv <- eval_kwargs kwargs ;;
  match fv with
  | VClass c =>
      lib_new (Construct c av kv) (lib_construct L c av kv) (fun _ => Instance c av kv)
  | _ => raise "TypeError"%string
  end.

Definition is_solver (c : class) : bool :=
  match c with
  | NumPyMinimumEigensolver | VQE | IQPE => true
  | _ => false
  end.

(** The two methods the notebook calls: [compute_minimum_eigenvalue] on a
    solver and [get_backend] on the provider. *)
Definition method (e : expr) (m : string) (args : list expr)
    (kwargs : list (string * expr)) : expr :=
  tv <- e ;; av <- eval_args args ;; kv <- eval_kwargs kwargs ;;
  match tv with
  | VRef a =>
      o <- deref a ;;
      match o, av, kv with
      | Instance c _ _, [], [(k, VOp A)] =>
          if is_solver c && String.eqb m "compute_minimum_eigenvalue"
             && String.eqb k "operator"
          then lib_new (ComputeMinimumEigenvalue a A) (lib_solve L a A) Solved
          else raise "AttributeError"%string
      | _, _, _ => raise "AttributeError"%string
      end
  | VGlobal path =>
      match av, kv with
      | [VStr n], [] =>
          if String.eqb path "qiskit.BasicAer" && String.eqb m "get_backend"
          then lib_new (GetBackend n) (fun _ => lib_get_backend L n) (fun _ => Backend n)
          else raise "AttributeError"%string
      | _, _ => raise "AttributeError"%string
      end
  | _ => raise "AttributeError"%string
  end.

Fixpoint store_all (targets : list string) (v : value) : nb world unit :=
  match targets with
  | [] => ret tt
  | x :: xs => store x v ;; store_all xs v
  end.

(** [x = e] and the chained [x = y = e]: the value is computed once and
    bound to the targets from left to right. *)
Definition assign (targets : list string) (e : expr) : nb world unit :=
  v <- e ;; store_all targets v.

(** [target.a = e] on an imported library object: the right-hand side is
    evaluated first, then the target, and the library stores the value. *)
Definition set_attr (target : expr) (a : string) (e : expr) : nb world unit :=
  v <- e ;; t <- target ;;
  match t with
  | VGlobal path => lib_do (SetAttr path a v) (lib_set_attr L path a v) ;; ret tt
  | _ => raise "AttributeError"%string
  end.

(** f-strings: literal text and [{e:.5f}] fields. *)
Inductive piece : Type :=
| Text (s : string)
| Fmt5 (e : expr).

Fixpoint fields (ps : list piece) : nb world (list string) :=
  match ps with
  | [] => ret []
  | Text t :: ps' => rest <- fields ps' ;; ret (t :: rest)
  | Fmt5 e :: ps' =>
      v <- e ;;
      match v with
      | VFloat x => rest <- fields ps' ;; ret (format_5f x :: rest)
      | VInt n => rest <- fields ps' ;; ret (format_5f (inject_Z n) :: rest)
      | _ => raise "TypeError"%string
      end
  end.

Definition fstring (ps : list piece) : nb world string :=
  parts <- fields ps ;; ret (String.concat "" parts).

Definition print (ps : list piece) : nb world unit :=
  line <- fstring ps ;; log (EPrint line).

(** Imports.  [import m as x] and [import p.q.r] load the module and bind
    one name; [from m import x, y] loads the module, then fetches and
    binds the names one after the other, so that a name that cannot be
    fetched leaves the names before it bound. *)
Definition import_as (x : string) (v : value) : nb world unit :=
  bind_name x v ;; log (EImport x).

Definition import_module (m x : string) (v : value) : nb world unit :=
  lib_do (ImportModule m) (lib_import L m) ;; import_as x v.

Fixpoint import_names (m : string) (xs : list (string * value)) : nb world unit :=
  match xs with
  | [] => ret tt
  | (x, v) :: xs' =>
      lib_do (ImportFrom m x) (lib_import_from L m x) ;;
      import_as x v ;;
      import_names m xs'
  end.

Definition from_import (m : string) (xs : list (string * value)) : nb world unit :=
  lib_do (ImportModule m) (lib_import L m) ;; import_names m xs.

(** IPython line magics of the [qiskit.tools.jupyter] extension. *)
Definition magic (m : string) : nb world unit :=
  lib_do (Magic m) (lib_magic L m) ;; ret tt.

(** ** The seven code cells *)

Definition cell1 : nb world unit :=
  import_module "numpy" "np" (VGlobal "numpy") ;;
  from_import "qiskit" [("BasicAer", VGlobal "qiskit.BasicAer")] ;;
  from_import "qiskit.aqua"
    [("aqua_globals", VGlobal "qiskit.aqua.aqua_globals");
     ("QuantumInstance", VClass QuantumInstance)] ;;
  from_import "qiskit.aqua.algorithms"
    [("VQE", VClass VQE);
     ("NumPyMinimumEigensolver", VClass NumPyMinimumEigensolver);
     ("IQPE", VClass IQPE)] ;;
  from_import "qiskit.aqua.operators"
    [("I", VOp (prim Pauli.I)); ("X", VOp (prim Pauli.X)); ("Z", VOp (prim Pauli.Z))] ;;
  from_import "qiskit.circuit.library" [("TwoLocal", VClass TwoLocal)] ;;
  from_import "qiskit.aqua.components.optimizers" [("SPSA", VClass SPSA)] ;;
  from_import "qiskit.aqua.components.initial_states.var_form_based"
    [("VarFormBased", VClass VarFormBased)].

Definition cell2 : nb world unit :=
  assign ["H2_op"]
    (add (add (add (add
       (xor (mul (num (-1.052373245772859)) (name "I")) (name "I"))
       (xor (mul (num 0.39793742484318045) (name "I")) (name "Z")))
       (xor (mul (num (-0.39793742484318045)) (name "Z")) (name "I")))
       (xor (mul (num (-0.01128010425623538)) (name "Z")) (name "Z")))
       (xor (mul (num 0.18093119978423156) (name "X")) (name "X"))).

Definition cell3 : nb world unit :=
  assign ["npme"] (call (name "NumPyMinimumEigensolver") [] []) ;;
  assign ["result"]
    (method (name "npme") "compute_minimum_eigenvalue" [] [("operator", name "H2_op")]) ;;
  assign ["ref_value"] (attr (attr (name "result") "eigenvalue") "real") ;;
  print [Text "Reference value: "; Fmt5 (name "ref_value")].

Definition cell4 : nb world unit :=
  assign ["seed"] (int 5) ;;
  set_attr (name "aqua_globals") "random_seed" (name "seed") ;;
  assign ["var_form"]
    (call (name "TwoLocal") []
       [("rotation_blocks", list_of [str "ry"; str "rz"]);
        ("entanglement_blocks", str "cz"); ("reps", int 3)]) ;;
  assign ["spsa"] (call (name "SPSA") [] [("maxiter", int 10)]) ;;
  assign ["backend"] (method (name "BasicAer") "get_backend" [str "qasm_simulator"] []) ;;
  assign ["qi"]
    (call (name "QuantumInstance") [name "backend"]
       [("seed_simulator", name "seed"); ("seed_transpiler", name "seed")]) ;;
  assign ["vqe"]
    (call (name "VQE") []
       [("var_form", name "var_form"); ("optimizer", name "spsa");
        ("quantum_instance", name "qi")]) ;;
  assign ["result_vqe"]
    (method (name "vqe") "compute_minimum_eigenvalue" [] [("operator", name "H2_op")]) ;;
  print [Text "VQE estimated the ground energy to be ";
         Fmt5 (attr (attr (name "result_vqe") "eigenvalue") "real")] ;;
  print [Text "Delta from reference energy value is ";
         Fmt5 (sub (attr (attr (name "result_vqe") "eigenvalue") "real")
                   (name "ref_value"))].

Definition cell5 : nb world unit :=
  assign ["vqe_state"]
    (call (name "VarFormBased")
       [name "var_form"; attr (name "result_vqe") "optimal_parameters"] []).

Definition cell6 : nb world unit :=
  assign ["qi"]
    (call (name "QuantumInstance") [name "backend"]
       [("shots", int 100); ("seed_simulator", name "seed");
        ("seed_transpiler", name "seed")]) ;;
  assign ["iqpe"]
    (call (name "IQPE") []
       [("state_in", name "vqe_state"); ("num_time_slices", int 1);
        ("num_iterations", int 6); ("expansion_mode", str "suzuki");
        ("expansion_order", int 2); ("quantum_instance", name "qi")]) ;;
  assign ["result_iqpe"; "result_vqe"]
    (method (name "iqpe") "compute_minimum_eigenvalue" [] [("operator", name "H2_op")]) ;;
  print [Text "Continuing with VQE's result, IQPE estimated the ground energy to be ";
         Fmt5 (attr (attr (name "result_iqpe") "eigenvalue") "real")] ;;
  print [Text "Delta from reference energy value is ";
         Fmt5 (sub (attr (attr (name "result_iqpe") "eigenvalue") "real")
                   (name "ref_value"))].

Definition cell7 : nb world unit :=
  import_module "qiskit.tools.jupyter" "qiskit" (VGlobal "qiskit") ;;
  magic "qiskit_version_table" ;;
  magic "qiskit_copyright".

(** ** Running the notebook

    The cells run in order, each under its execution count; the first
    exception stops the run at the cell that raised it. *)

Inductive status : Set :=
| Completed
| Halted (k : nat) (e : exn).

Definition enter (k : nat) (s : state world) : state world :=
  State (ns s) (heap s) (lib_state s) (trace s) k.

Fixpoint run_cells (cs : list (nat * nb world unit)) (s : state world) :
    status * state world :=
  match cs with
  | [] => (Completed, s)
  | (k, c) :: cs' =>
      match c (enter k s) with
      | (Ok _, s') => run_cells cs' s'
      | (Raise e, s') => (Halted k e, s')
      end
  end.

Definition notebook : list (nat * nb world unit) :=
  [(1, cell1); (2, cell2); (3, cell3); (4, cell4); (5, cell5); (6, cell6); (7, cell7)]%nat.

Definition run_notebook (w : world) : status * state world :=
  run_cells notebook (initial w).

End Cells.

(** ** What a completed run leaves behind

    Addresses are handed out in order, so a run that completes always
    builds the same twelve objects; only the three solver results differ
    from run to run. *)

Definition qi_vqe_kwargs : list (string * value) :=
  [("seed_simulator", VInt 5); ("seed_transpiler", VInt 5)].

Definition qi_iqpe_kwargs : list (string * value) :=
  [("shots", VInt 100); ("seed_simulator", VInt 5); ("seed_transpiler", VInt 5)].

Definition two_local_kwargs : list (string * value) :=
  [("rotation_blocks", VList [VStr "ry"; VStr "rz"]);
   ("entanglement_blocks", VStr "cz"); ("reps", VInt 3)].

Definition vqe_kwargs : list (string * value) :=
  [("var_form", VRef 2); ("optimizer", VRef 3); ("quantum_instance", VRef 5)].

Definition iqpe_kwargs : list (string * value) :=
  [("state_in", VRef 8); ("num_time_slices", VInt 1); ("num_iterations", VInt 6);
   ("expansion_mode", VStr "suzuki"); ("expansion_order", VInt 2);
   ("quantum_instance", VRef 9)].

Definition completed_heap (r_ref r_vqe r_iqpe : result) : list object :=
  [ Instance NumPyMinimumEigensolver [] [];
    Solved r_ref;
    Instance TwoLocal [] two_local_kwargs;
    Instance SPSA [] [("maxiter", VInt 10)];
    Backend "qasm_simulator";
    Instance QuantumInstance [VRef 4] qi_vqe_kwargs;
    Instance VQE [] vqe_kwargs;
    Solved r_vqe;
    Instance VarFormBased [VRef 2; optimal_parameters r_vqe] [];
    Instance QuantumInstance [VRef 4] qi_iqpe_kwargs;
    Instance IQPE [] iqpe_kwargs;
    Solved r_iqpe ].

Definition imported : list (string * value) :=
  [ ("np", VGlobal "numpy"); ("BasicAer", VGlobal "qiskit.BasicAer");
    ("aqua_globals", VGlobal "qiskit.aqua.aqua_globals");
    ("QuantumInstance", VClass QuantumInstance); ("VQE", VClass VQE);
    ("NumPyMinimumEigensolver", VClass NumPyMinimumEigensolver);
    ("IQPE", VClass IQPE);
    ("I", VOp (prim Pauli.I)); ("X", VOp (prim Pauli.X)); ("Z", VOp (prim Pauli.Z));
    ("TwoLocal", VClass TwoLocal); ("SPSA", VClass SPSA);
    ("VarFormBased", VClass VarFormBased); ("qiskit", VGlobal "qiskit") ].

Definition completed_bindings (r_ref : result) : list (string * value) :=
  imported ++
  [ ("H2_op", VOp H2_op); ("npme", VRef 0); ("result", VRef 1);
    ("ref_value", VFloat (fst (eigenvalue r_ref)));
    ("seed", VInt 5); ("var_form", VRef 2); ("spsa", VRef 3);
    ("backend", VRef 4); ("qi", VRef 9); ("vqe", VRef 6);
    ("result_vqe", VRef 11); ("vqe_state", VRef 8); ("iqpe", VRef 10);
    ("result_iqpe", VRef 11) ].

Definition completed_ns (r_ref : result) : gmap string value :=
  list_to_map (completed_bindings r_ref).

(** What [from m import x, y] logs in cell [k] when nothing fails. *)
Definition from_import_log (k : nat) (m : string) (xs : list string) : list (nat * event) :=
  (k, ELib (ImportModule m) (Ok VNone)) ::
  flat_map (fun x => [(k, ELib (ImportFrom m x) (Ok VNone)); (k, EImport x)]) xs.

Definition trace_cell1 : list (nat * event) :=
  [ (1, ELib (ImportModule "numpy") (Ok VNone)); (1, EImport "np") ] ++
  from_import_log 1 "qiskit" ["BasicAer"] ++
  from_import_log 1 "qiskit.aqua" ["aqua_globals"; "QuantumInstance"] ++
  from_import_log 1 "qiskit.aqua.algorithms" ["VQE"; "NumPyMinimumEigensolver"; "IQPE"] ++
  from_import_log 1 "qiskit.aqua.operators" ["I"; "X"; "Z"] ++
  from_import_log 1 "qiskit.circuit.library" ["TwoLocal"] ++
  from_import_log 1 "qiskit.aqua.components.optimizers" ["SPSA"] ++
  from_import_log 1 "qiskit.aqua.components.initial_states.var_form_based" ["VarFormBased"].

Definition trace_cell2 : list (nat * event) :=
  [(2, EAssign "H2_op" (VOp H2_op))].

Definition trace_cell3 (r_ref : result) : list (nat * event) :=
  [ (3, ELib (Construct NumPyMinimumEigensolver [] []) (Ok (VRef 0)));
    (3, EAssign "npme" (VRef 0));
    (3, ELib (ComputeMinimumEigenvalue 0 H2_op) (Ok (VRef 1)));
    (3, EAssign "result" (VRef 1));
    (3, EGetAttr 1 "eigenvalue");
    (3, EAssign "ref_value" (VFloat (fst (eigenvalue r_ref))));
    (3, EPrint ("Reference value: " ++ format_5f (fst (eigenvalue r_ref)))) ].

Definition trace_cell4 (fsub : Q -> Q -> Q) (r_ref r_vqe : result) : list (nat * event) :=
  [ (4, EAssign "seed" (VInt 5));
    (4, ELib (SetAttr "qiskit.aqua.aqua_globals" "random_seed" (VInt 5)) (Ok VNone));
    (4, ELib (Construct TwoLocal [] two_local_kwargs) (Ok (VRef 2)));
    (4, EAssign "var_form" (VRef 2));
    (4, ELib (Construct SPSA [] [("maxiter", VInt 10)]) (Ok (VRef 3)));
    (4, EAssign "spsa" (VRef 3));
    (4, ELib (GetBackend "qasm_simulator") (Ok (VRef 4)));
    (4, EAssign "backend" (VRef 4));
    (4, ELib (Construct QuantumInstance [VRef 4] qi_vqe_kwargs) (Ok (VRef 5)));
    (4, EAssign "qi" (VRef 5));
    (4, ELib (Construct VQE [] vqe_kwargs) (Ok (VRef 6)));
    (4, EAssign "vqe" (VRef 6));
    (4, ELib (ComputeMinimumEigenvalue 6 H2_op) (Ok (VRef 7)));
    (4, EAssign "result_vqe" (VRef 7));
    (4, EGetAttr 7 "eigenvalue");
    (4, EPrint ("VQE estimated the ground energy to be "
                ++ format_5f (fst (eigenvalue r_vqe))));
    (4, EGetAttr 7 "eigenvalue");
    (4, EPrint ("Delta from reference energy value is "
                ++ format_5f (fsub (fst (eigenvalue r_vqe)) (fst (eigenvalue r_ref))))) ].

Definition trace_cell5 (r_vqe : result) : list (nat * event) :=
  [ (5, EGetAttr 7 "optimal_parameters");
    (5, ELib (Construct VarFormBased [VRef 2; optimal_parameters r_vqe] []) (Ok (VRef 8)));
    (5, EAssign "vqe_state" (VRef 8)) ].

Definition trace_cell6 (fsub : Q -> Q -> Q) (r_ref r_iqpe : result) : list (nat * event) :=
  [ (6, ELib (Construct QuantumInstance [VRef 4] qi_iqpe_kwargs) (Ok (VRef 9)));
    (6, EAssign "qi" (VRef 9));
    (6, ELib (Construct IQPE [] iqpe_kwargs) (Ok (VRef 10)));
    (6, EAssign "iqpe" (VRef 10));
    (6, ELib (ComputeMinimumEigenvalue 10 H2_op) (Ok (VRef 11)));
    (6, EAssign "result_iqpe" (VRef 11));
    (6, EAssign "result_vqe" (VRef 11));
    (6, EGetAttr 11 "eigenvalue");
    (6, EPrint ("Continuing with VQE's result, IQPE estimated the ground energy to be "
                ++ format_5f (fst (eigenvalue r_iqpe))));
    (6, EGetAttr 11 "eigenvalue");
    (6, EPrint ("Delta from reference energy value is "
                ++ format_5f (fsub (fst (eigenvalue r_iqpe)) (fst (eigenvalue r_ref))))) ].

Definition trace_cell7 : list (nat * event) :=
  [ (7, ELib (ImportModule "qiskit.tools.jupyter") (Ok VNone));
    (7, EImport "qiskit");
    (7, ELib (Magic "qiskit_version_table") (Ok VNone));
    (7, ELib (Magic "qiskit_copyright") (Ok VNone)) ].

Definition completed_trace (fsub : Q -> Q -> Q) (r_ref r_vqe r_iqpe : result) :
    list (nat * event) :=
  trace_cell1 ++ trace_cell2 ++ trace_cell3 r_ref ++ trace_cell4 fsub r_ref r_vqe
  ++ trace_cell5 r_vqe ++ trace_cell6 fsub r_ref r_iqpe ++ trace_cell7.

(** A run that completed with the three given solver results. *)
Definition completed_with {world : Type} (fsub : Q -> Q -> Q)
    (r_ref r_vqe r_iqpe : result) (s : state world) : Prop :=
  ns s = completed_ns r_ref /\
  heap s = completed_heap r_ref r_vqe r_iqpe /\
  trace s = completed_trace fsub r_ref r_vqe r_iqpe.

(** ** What a halted run leaves behind *)

Definition raises (ev : event) : bool :=
  match ev with
  | ELib _ (Raise _) => true
  | _ => false
  end.

(** The log of a run halted in cell [k] by exception [e]: its last entry
    is a library request of cell [k] answered by [e]; no earlier entry is
    an exception and none belongs to a later cell. *)
Fixpoint ends_in_raise (k : nat) (e : exn) (tr : list (nat * event)) : Prop :=
  match tr with
  | [] => False
  | (k', ev) :: tr' =>
      match tr' with
      | [] => k' = k /\ exists req, ev = ELib req (Raise e)
      | _ :: _ => raises ev = false /\ (k' <= k)%nat /\ ends_in_raise k e tr'
      end
  end.

(** ** Reading a log *)

Definition class_eqb (c d : class) : bool :=
  match c, d with
  | NumPyMinimumEigensolver, NumPyMinimumEigensolver
  | TwoLocal, TwoLocal | SPSA, SPSA | QuantumInstance, QuantumInstance
  | VQE, VQE | VarFormBased, VarFormBased | IQPE, IQPE => true
  | _, _ => false
  end.

Definition class_at (h : list object) (a : addr) : option class :=
  match nth_error h a with
  | Some (Instance c _ _) => Some c
  | _ => None
  end.

(** The successful solver invocations of a run: the class of the solver,
    its address, and the address of the result it returned. *)
Definition solve_calls {world : Type} (s : state world) : list (class * addr * addr) :=
  flat_map (fun ke =>
    match snd ke with
    | ELib (ComputeMinimumEigenvalue a _) (Ok (VRef r)) =>
        match class_at (heap s) a with
        | Some c => [(c, a, r)]
        | None => []
        end
    | _ => []
    end) (trace s).

Definition solve_call {world : Type} (c : class) (s : state world) :
    option (class * addr * addr) :=
  List.find (fun x => class_eqb (fst (fst x)) c) (solve_calls s).

(** The solver object of class [c] that was invoked, and its result. *)
Definition solver_of {world : Type} (c : class) (s : state world) : option addr :=
  match solve_call c s with
  | Some (_, a, _) => Some a
  | None => None
  end.

Definition solve_result {world : Type} (c : class) (s : state world) : option addr :=
  match solve_call c s with
  | Some (_, _, r) => Some r
  | None => None
  end.

Definition solved_by {world : Type} (c : class) (s : state world) : option result :=
  match solve_result c s with
  | Some r =>
      match nth_error (heap s) r with
      | Some (Solved x) => Some x
      | _ => None
      end
  | None => None
  end.

Fixpoint kwarg (k : string) (kv : list (string * value)) : option value :=
  match kv with
  | [] => None
  | (k', v) :: kv' => if String.eqb k' k then Some v else kwarg k kv'
  end.

(** The object passed as keyword argument [k] when [a] was constructed. *)
Definition kwarg_object (h : list object) (a : addr) (k : string) : option (addr * object) :=
  match nth_error h a with
  | Some (Instance _ _ kv) =>
      match kwarg k kv with
      | Some (VRef q) =>
          match nth_error h q with
          | Some o => Some (q, o)
          | None => None
          end
      | _ => None
      end
  | _ => None
  end.

(** The values a name was assigned, in order. *)
Definition written (x : string) (tr : list (nat * event)) : list value :=
  flat_map (fun ke =>
    match snd ke with
    | EAssign y v => if String.eqb y x then [v] else []
    | _ => []
    end) tr.

(** The operators the solvers were asked to diagonalise. *)
Definition solved_operators (tr : list (nat * event)) : list operator :=
  flat_map (fun ke =>
    match snd ke with
    | ELib (ComputeMinimumEigenvalue _ A) _ => [A]
    | _ => []
    end) tr.

(** [H2_op] in a run that got as far as cell [k]: bound once, to the
    operator of cell 2, unless an import of cell 1 failed, in which case
    it has not been bound at all. *)
Definition H2_op_bound_once {world : Type} (k : nat) (st : state world) : Prop :=
  ns st !! "H2_op" = Some (VOp H2_op) /\ written "H2_op" (trace st) = [VOp H2_op]
  \/ k = 1%nat /\ ns st !! "H2_op" = None /\ written "H2_op" (trace st) = [].

(** Every run ends in one of two ways. *)
Definition run_ok {world : Type} (fsub : Q -> Q -> Q) (r : status * state world) : Prop :=
  match r with
  | (Completed, st) =>
      exists r_ref r_vqe r_iqpe, completed_with fsub r_ref r_vqe r_iqpe st
  | (Halted k e, st) =>
      ends_in_raise k e (trace st) /\
      H2_op_bound_once k st /\
      Forall (fun A => A = H2_op) (solved_operators (trace st))
  end.

Fixpoint positions_from (i : nat) (p : event -> bool) (tr : list (nat * event)) : list nat :=
  match tr with
  | [] => []
  | (_, ev) :: tr' =>
      if p ev then i :: positions_from (S i) p tr' else positions_from (S i) p tr'
  end.

(** Where in the log the events satisfying [p] are. *)
Definition positions (p : event -> bool) (tr : list (nat * event)) : list nat :=
  positions_from 0 p tr.

Definition is_state_write (ev : event) : bool :=
  match ev with
  | ELib (SetAttr _ _ _) _ => true
  | _ => false
  end.

Definition is_seed_write (ev : event) : bool :=
  match ev with
  | ELib (SetAttr path a _) _ =>
      String.eqb path "qiskit.aqua.aqua_globals" && String.eqb a "random_seed"
  | _ => false
  end.

Definition is_solver_request (ev : event) : bool :=
  match ev with
  | ELib (ComputeMinimumEigenvalue _ _) _ => true
  | _ => false
  end.

(** The names a log binds, by import or by assignment, each with the cell
    that binds it. *)
Definition bindings (tr : list (nat * event)) : list (nat * string) :=
  flat_map (fun ke =>
    match snd ke with
    | EImport x | EAssign x _ => [(fst ke, x)]
    | _ => []
    end) tr.

(** A name bound in cell [k1] and bound again in the later cell [k2]:
    the cells share it, and the later one changes it. *)
Definition rebound (x : string) (k1 k2 : nat) (tr : list (nat * event)) : Prop :=
  (k1 < k2)%nat /\ In (k1, x) (bindings tr) /\ In (k2, x) (bindings tr).

(** All the rebindings of a list of bindings. *)
Definition rebindings (bs : list (nat * string)) : list (string * nat * nat) :=
  flat_map (fun p =>
    flat_map (fun q =>
      if (fst p <? fst q)%nat && String.eqb (snd p) (snd q)
      then [(snd p, fst p, fst q)] else []) bs) bs.

(** The first half of the claim: the seed is written once, and the write
    comes before every solver invocation. *)
Definition seed_set_once_before_solvers (tr : list (nat * event)) : Prop :=
  exists i,
    positions is_seed_write tr = [i] /\
    Forall (fun j => (i < j)%nat) (positions is_solver_request tr).

(** The second half: nothing else is shared and changed from cell to
    cell; no other attribute of the library is written and no name is
    rebound by a later cell. *)
Definition no_other_shared_state (tr : list (nat * event)) : Prop :=
  positions is_state_write tr = positions is_seed_write tr /\
  forall x k1 k2, ~ rebound x k1 k2 tr.

(** ** The pipeline *)










(** ** The recorded run

    The output the notebook file records for cells 3, 4 and 6. *)
Definition recorded_output : list string :=
  [ "Reference value: -1.85728";
    "VQE estimated the ground energy to be -1.74063";
    "Delta from reference energy value is 0.11664";
    "Continuing with VQE's result, IQPE estimated the ground energy to be -1.84917";
    "Delta from reference energy value is 0.00811" ]%string.

(** Floating-point subtraction is correctly rounded: the relative error
    is at most half a unit in the last of 53 bits. *)
Definition correctly_rounded (fsub : Q -> Q -> Q) : Prop :=
  forall a b, (Qabs (fsub a b - (a - b)) <= (1 # 9007199254740992) * Qabs (a - b))%Q.

(** ** Two libraries to run the notebook with

    [replay] answers every request and lets each solver return the result
    it is given; [failing] raises when the solver of one class is invoked;
    [without_module] raises when one module is imported. *)

Definition default_result : result := Result (0, 0)%Q VNone.

Definition replay_solve (fail : option class) (r_ref r_vqe r_iqpe : result)
    (a : addr) (A : operator) (h : list object) (w : unit) : outcome result * unit :=
  match class_at h a with
  | Some c =>
      if match fail with Some d => class_eqb c d | None => false end
      then (Raise "AquaError"%string, w)
      else match c with
           | NumPyMinimumEigensolver => (Ok r_ref, w)
           | VQE => (Ok r_vqe, w)
           | IQPE => (Ok r_iqpe, w)
           | _ => (Raise "AttributeError"%string, w)
           end
  | None => (Raise "AttributeError"%string, w)
  end.

Definition scripted (fail : option class) (r_ref r_vqe r_iqpe : result) : library unit :=
  Library unit
    (fun _ w => (Ok tt, w))
    (fun _ _ w => (Ok tt, w))
    (fun _ _ _ _ w => (Ok tt, w))
    (fun _ w => (Ok tt, w))
    (replay_solve fail r_ref r_vqe r_iqpe)
    (fun _ _ _ w => (Ok tt, w))
    (fun _ w => (Ok tt, w)).

Definition replay : result -> result -> result -> library unit := scripted None.

Definition failing (c : class) : library unit :=
  scripted (Some c) (Result (0, 0)%Q VNone) (Result (0, 0)%Q VNone) (Result (0, 0)%Q VNone).

(** A library in which the module [missing] cannot be found. *)
Definition without_module (missing : string) : library unit :=
  Library unit
    (fun m w =>
       if String.eqb m missing then (Raise "ModuleNotFoundError"%string, w) else (Ok tt, w))
    (fun _ _ w => (Ok tt, w))
    (fun _ _ _ _ w => (Ok tt, w))
    (fun _ w => (Ok tt, w))
    (replay_solve None default_result default_result default_result)
    (fun _ _ _ w => (Ok tt, w))
    (fun _ w => (Ok tt, w)).

(** Solver results that print as the recorded output does. *)
Definition sample_ref : result := Result (-1.857275030202382, 0)%Q VNone.
Definition sample_vqe : result := Result (-1.740632, 0)%Q (VList [VFloat 0.5%Q]).
Definition sample_iqpe : result := Result (-1.849168, 0)%Q VNone.

Definition sample_library : library unit := replay sample_ref sample_vqe sample_iqpe.

(** The state the notebook ends in with the sample library, and the one it
    halts in when the VQE solver raises. *)
Definition sample_state : state unit :=
  Eval vm_compute in snd (run_notebook sample_library Qminus tt).

Definition failed_state : state unit :=
  Eval vm_compute in snd (run_notebook (failing VQE) Qminus tt).

(** The state the notebook ends in when the two quantum solvers return
    each other's sample values. *)
Definition swapped_state : state unit :=
  Eval vm_compute in snd (run_notebook (replay sample_ref sample_iqpe sample_vqe) Qminus tt).

(** ** Runs that stop early

    Further ways to read the log of a run, used for the properties that
    hold of halted runs as well. *)

(** The lines a log prints. *)
Definition printed (tr : list (nat * event)) : list string :=
  flat_map (fun ke => match snd ke with EPrint l => [l] | _ => [] end) tr.

(** The five lines a completed run prints. *)
Definition completed_output (fsub : Q -> Q -> Q) (r_ref r_vqe r_iqpe : result) :
    list string :=
  [ "Reference value: " ++ format_5f (fst (eigenvalue r_ref));
    "VQE estimated the ground energy to be " ++ format_5f (fst (eigenvalue r_vqe));
    "Delta from reference energy value is "
      ++ format_5f (fsub (fst (eigenvalue r_vqe)) (fst (eigenvalue r_ref)));
    "Continuing with VQE's result, IQPE estimated the ground energy to be "
      ++ format_5f (fst (eigenvalue r_iqpe));
    "Delta from reference energy value is "
      ++ format_5f (fsub (fst (eigenvalue r_iqpe)) (fst (eigenvalue r_ref))) ]%string.

(** A halted log follows the log of a completed run up to some entry,
    which is a library request, and ends with that request raising. *)
Definition follows_script (fsub : Q -> Q -> Q) (k : nat) (e : exn)
    (tr : list (nat * event)) : Prop :=
  exists r_ref r_vqe r_iqpe n req v,
    tr = firstn n (completed_trace fsub r_ref r_vqe r_iqpe)
         ++ [(k, ELib req (Raise e))] /\
    nth_error (completed_trace fsub r_ref r_vqe r_iqpe) n = Some (k, ELib req (Ok v)).

(** Scanning a log for a solver request that is sent, before the seed has
    been written, to anything but the exact solver. *)
Fixpoint seeded_scan (h : list object) (seeded : bool) (tr : list (nat * event)) : bool :=
  match tr with
  | [] => true
  | (_, ev) :: tr' =>
      match ev with
      | ELib (ComputeMinimumEigenvalue a _) _ =>
          match class_at h a with
          | Some NumPyMinimumEigensolver => seeded_scan h seeded tr'
          | _ => seeded && seeded_scan h seeded tr'
          end
      | _ => seeded_scan h (seeded || (is_seed_write ev && negb (raises ev))) tr'
      end
  end.

(** The names the log assigns, in order. *)
Definition assigned_names (tr : list (nat * event)) : list string :=
  flat_map (fun ke => match snd ke with EAssign x _ => [x] | _ => [] end) tr.

(** What a halted run keeps, beyond [run_ok]. *)
Definition run_detail {world : Type} (fsub : Q -> Q -> Q) (r : status * state world) : Prop :=
  match r with
  | (Completed, st) => True
  | (Halted k e, st) =>
      follows_script fsub k e (trace st) /\
      seeded_scan (heap st) false (trace st) = true /\
      (k = 6%nat ->
       solve_result VQE st = Some 7%nat /\
       ns st !! "result_vqe" = Some (VRef 7) /\
       ns st !! "result_iqpe" = None)
  end.

(** The state the notebook halts in when the IQPE solver raises, and when
    the module imported by cell 7 is missing. *)
Definition failed_iqpe_state : state unit :=
  Eval vm_compute in snd (run_notebook (failing IQPE) Qminus tt).

Definition failed_import_state : state unit :=
  Eval vm_compute in snd (run_notebook (without_module "qiskit.tools.jupyter") Qminus tt).

(** ** Shapes

    An operator is over [n] qubits when each of its strings has [n]
    factors; a matrix is square of side [n] when it has [n] rows of [n]
    entries. *)

Definition all_qubits (n : nat) (A : operator) : bool :=
  forallb (fun t => Nat.eqb (length (paulis t)) n) A.

Definition square (n : nat) (M : matrix) : Prop :=
  length M = n /\ Forall (fun row => length row = n) M.

(** * Properties *)

(** ** The operator and its spectrum *)

Lemma min_eigenvalue_unique M a b :
  is_min_eigenvalue M a -> is_min_eigenvalue M b -> a = b.
Proof.
  intros [[va Ha] La] [[vb Hb] Lb].
  apply Rle_antisym; [apply (La b vb Hb) | apply (Lb a va Ha)].
Qed.

(** Complex eigenvectors of a real matrix add no eigenvalue below the
    lowest one. *)
Lemma min_eigenvalue_complex M ev mu u t :
  is_min_eigenvalue M ev -> is_complex_eigenpair M mu u t -> (ev <= mu)%R.
Proof.
  intros [_ Hmin] (Hu & Ht & (x & [Hx | Hx] & Hnz) & Eu & Et).
  - apply (Hmin mu u). repeat split; [exact Hu | exists x; tauto | exact Eu].
  - apply (Hmin mu t). repeat split; [exact Ht | exists x; tauto | exact Et].
Qed.

Section TwoBlocks.
Variables p q1 q2 e : R.

Let low : R := inner_low q1 q2 e.
Let radius : R := inner_radius q1 q2 e.

Lemma inner_radius_sqr :
  (radius * radius = inner_half q1 q2 * inner_half q1 q2 + e * e)%R.
Proof. apply sqrt_sqrt. nra. Qed.

Lemma inner_radius_nonneg : (0 <= radius)%R.
Proof. apply sqrt_pos. Qed.

Lemma inner_low_root : ((q1 - low) * (q2 - low) = e * e)%R.
Proof.
  pose proof inner_radius_sqr as Hs.
  unfold low, inner_low, inner_mid, inner_half in *. fold radius. nra.
Qed.

(** An eigenvector supported on one block obeys that block's equation. *)
Lemma block_characteristic a b mu x y :
  (a * x + e * y = mu * x)%R -> (e * x + b * y = mu * y)%R ->
  x <> 0%R \/ y <> 0%R -> ((a - mu) * (b - mu) = e * e)%R.
Proof.
  intros E1 E2 Hnz.
  assert (A : ((a - mu) * x + e * y = 0)%R) by lra.
  assert (B : (e * x + (b - mu) * y = 0)%R) by lra.
  assert (H1 : (((a - mu) * (b - mu) - e * e) * x = 0)%R).
  { replace (((a - mu) * (b - mu) - e * e) * x)%R
      with ((b - mu) * ((a - mu) * x + e * y) - e * (e * x + (b - mu) * y))%R by ring.
    rewrite A, B. ring. }
  assert (H2 : (((a - mu) * (b - mu) - e * e) * y = 0)%R).
  { replace (((a - mu) * (b - mu) - e * e) * y)%R
      with ((a - mu) * (e * x + (b - mu) * y) - e * ((a - mu) * x + e * y))%R by ring.
    rewrite A, B. ring. }
  destruct Hnz as [Hn | Hn];
    [apply Rmult_integral in H1 as [H1 | H1]
    |apply Rmult_integral in H2 as [H2 | H2]]; try contradiction; lra.
Qed.

Lemma outer_block_bound mu w0 w3 :
  (p * w0 + e * w3 = mu * w0)%R -> (e * w0 + p * w3 = mu * w3)%R ->
  w0 <> 0%R \/ w3 <> 0%R -> (p - Rabs e <= mu)%R.
Proof.
  intros E0 E3 Hnz.
  pose proof (block_characteristic p p mu w0 w3 E0 E3 Hnz) as Hsq.
  unfold Rabs. destruct (Rcase_abs e); nra.
Qed.

Lemma inner_block_bound mu w1 w2 :
  (q1 * w1 + e * w2 = mu * w1)%R -> (e * w1 + q2 * w2 = mu * w2)%R ->
  w1 <> 0%R \/ w2 <> 0%R -> (low <= mu)%R.
Proof.
  intros E1 E2 Hnz.
  pose proof inner_radius_sqr as Hs. pose proof inner_radius_nonneg as Hp.
  pose proof (block_characteristic q1 q2 mu w1 w2 E1 E2 Hnz) as Hsq.
  assert (Hc : ((mu - inner_mid q1 q2) * (mu - inner_mid q1 q2) = radius * radius)%R).
  { rewrite Hs. unfold inner_mid, inner_half. nra. }
  unfold low, inner_low. fold radius. nra.
Qed.

Hypothesis e_nonzero : e <> 0%R.
Hypothesis outer_above : (low <= p - Rabs e)%R.

Lemma inner_low_eigenpair :
  is_eigenpair (two_blocks p q1 q2 e) low [0; e; low - q1; 0]%R.
Proof.
  pose proof inner_low_root as Hr.
  split; [reflexivity|]. split.
  - exists e. split; [simpl; tauto | exact e_nonzero].
  - unfold two_blocks, mat_vec, dot. simpl.
    f_equal; [ring|]. f_equal; [ring|]. f_equal; [nra|]. f_equal. ring.
Qed.

Lemma two_blocks_min_eigenvalue : is_min_eigenvalue (two_blocks p q1 q2 e) low.
Proof.
  split; [eexists; apply inner_low_eigenpair|].
  intros mu w (Hlen & (x & Hin & Hx) & Heq).
  destruct w as [|w0 [|w1 [|w2 [|w3 [|? ?]]]]]; try discriminate Hlen.
  unfold two_blocks, mat_vec, dot in Heq. simpl in Heq.
  injection Heq as E0 E1 E2 E3.
  simpl in Hin.
  destruct Hin as [<- | [<- | [<- | [<- | []]]]].
  - etransitivity; [exact outer_above|].
    apply (outer_block_bound mu w0 w3); [lra | lra | tauto].
  - apply (inner_block_bound mu w1 w2); [lra | lra | tauto].
  - apply (inner_block_bound mu w1 w2); [lra | lra | tauto].
  - etransitivity; [exact outer_above|].
    apply (outer_block_bound mu w0 w3); [lra | lra | tauto].
Qed.

End TwoBlocks.

Lemma H2_op_terms :
  H2_op =
  [ Term (-1.052373245772859) [Pauli.I; Pauli.I];
    Term 0.39793742484318045 [Pauli.I; Pauli.Z];
    Term (-0.39793742484318045) [Pauli.Z; Pauli.I];
    Term (-0.01128010425623538) [Pauli.Z; Pauli.Z];
    Term 0.18093119978423156 [Pauli.X; Pauli.X] ].
Proof. reflexivity. Qed.

Lemma H2_matrix :
  to_matrix 2 H2_op =
  [[(H2_outer, 0); (0, 0); (0, 0); (H2_cross, 0)];
   [(0, 0); (H2_inner1, 0); (H2_cross, 0); (0, 0)];
   [(0, 0); (H2_cross, 0); (H2_inner2, 0); (0, 0)];
   [(H2_cross, 0); (0, 0); (0, 0); (H2_outer, 0)]]%Q.
Proof. vm_compute. reflexivity. Qed.

Lemma H2_matrix_real : is_real (to_matrix 2 H2_op) = true.
Proof. vm_compute. reflexivity. Qed.

Lemma Q2R_zero : Q2R 0 = 0%R.
Proof. unfold Q2R. simpl. lra. Qed.

Lemma H2_real_matrix :
  real_matrix (to_matrix 2 H2_op) =
  two_blocks (Q2R H2_outer) (Q2R H2_inner1) (Q2R H2_inner2) (Q2R H2_cross).
Proof.
  rewrite H2_matrix. unfold real_matrix, two_blocks.
  cbn [map fst]. rewrite !Q2R_zero. reflexivity.
Qed.

Lemma H2_radius_bounds :
  (0.81618186 < inner_radius (Q2R H2_inner1) (Q2R H2_inner2) (Q2R H2_cross)
   < 0.81619)%R.
Proof.
  unfold inner_radius, inner_half, H2_inner1, H2_inner2, H2_cross, Q2R.
  cbn [Qnum Qden].
  split.
  - match goal with |- (_ < sqrt ?x)%R =>
      assert (H : (sqrt (0.81618186 * 0.81618186) < sqrt x)%R)
        by (apply sqrt_lt_1_alt; lra)
    end.
    rewrite sqrt_square in H by lra. exact H.
  - match goal with |- (sqrt ?x < _)%R =>
      assert (H : (sqrt x < sqrt (0.81619 * 0.81619))%R)
        by (apply sqrt_lt_1_alt; split; [nra | lra])
    end.
    rewrite sqrt_square in H by lra. exact H.
Qed.

Lemma H2_ground_bounds : (-1.857285 < H2_ground < -1.857275)%R.
Proof.
  pose proof H2_radius_bounds as Hr.
  unfold H2_ground, inner_low, inner_mid.
  set (s := inner_radius _ _ _) in *.
  unfold H2_inner1, H2_inner2, Q2R. cbn [Qnum Qden]. lra.
Qed.

Lemma H2_ground_is_min :
  is_min_eigenvalue (real_matrix (to_matrix 2 H2_op)) H2_ground.
Proof.
  rewrite H2_real_matrix. apply two_blocks_min_eigenvalue.
  - unfold H2_cross, Q2R. cbn [Qnum Qden]. lra.
  - pose proof H2_ground_bounds as Hb. unfold H2_ground in Hb.
    set (g := inner_low _ _ _) in *.
    unfold H2_outer, H2_cross, Q2R. cbn [Qnum Qden].
    unfold Rabs. destruct (Rcase_abs _); lra.
Qed.

(** ** Formatting *)

Lemma round_half_even_bound x :
  (Qabs (x - inject_Z (round_half_even x)) <= 1 # 2)%Q.
Proof.
  unfold round_half_even.
  pose proof (Qfloor_le x) as Hlo. pose proof (Qlt_floor x) as Hhi.
  rewrite inject_Z_plus in Hhi.
  change (inject_Z 1) with 1%Q in Hhi.
  set (f := Qfloor x) in *. clearbody f.
  destruct (Qcompare (x - inject_Z f) (1 # 2)) eqn:Hc.
  - apply Qeq_alt in Hc.
    destruct (Z.even f); [|rewrite inject_Z_plus; change (inject_Z 1) with 1%Q];
      apply Qabs_Qle_condition; split; Lqa.lra.
  - apply Qlt_alt in Hc. apply Qabs_Qle_condition; split; Lqa.lra.
  - apply Qgt_alt in Hc. rewrite inject_Z_plus. change (inject_Z 1) with 1%Q.
    apply Qabs_Qle_condition; split; Lqa.lra.
Qed.

Lemma round_half_even_nonneg x : (0 <= x)%Q -> (0 <= round_half_even x)%Z.
Proof.
  intros Hx. unfold round_half_even.
  pose proof (Qfloor_resp_le 0 x Hx) as Hf.
  change (Qfloor 0) with 0%Z in Hf.
  destruct (Qcompare _ _); [destruct (Z.even _)| |]; lia.
Qed.

Lemma nilempty_all_digits d : all_digits (NilEmpty.string_of_uint d) = true.
Proof.
  induction d; cbn [NilEmpty.string_of_uint all_digits];
    rewrite ?IHd; reflexivity.
Qed.

Lemma digits_all_digits n : all_digits (digits n) = true.
Proof.
  unfold digits, NilZero.string_of_uint.
  destruct (N.to_uint (Z.to_N n)) eqn:E; try reflexivity;
    rewrite <- E; try apply nilempty_all_digits;
    rewrite E; apply nilempty_all_digits.
Qed.

Lemma to_uint_nonnil (n : N) : N.to_uint n <> Decimal.Nil.
Proof.
  destruct n; [discriminate | apply DecimalPos.Unsigned.to_uint_nonnil].
Qed.

Lemma digits_inj a b : (0 <= a)%Z -> (0 <= b)%Z -> digits a = digits b -> a = b.
Proof.
  intros Ha Hb H. unfold digits in H.
  apply (f_equal NilZero.uint_of_string) in H.
  rewrite !NilZero.usu in H by apply to_uint_nonnil.
  injection H as H. apply DecimalN.Unsigned.to_uint_inj in H. lia.
Qed.

Lemma digits_head n : exists c s, digits n = String c s /\ is_digit c = true.
Proof.
  pose proof (digits_all_digits n) as Hd.
  destruct (digits n) as [|c s] eqn:E.
  - exfalso. unfold digits, NilZero.string_of_uint in E.
    destruct (N.to_uint (Z.to_N n)); discriminate E.
  - exists c, s. split; [reflexivity|].
    cbn [all_digits] in Hd. apply andb_prop in Hd. tauto.
Qed.

Lemma digit_inj a b :
  (0 <= a < 10)%Z -> (0 <= b < 10)%Z -> digit a = digit b -> a = b.
Proof.
  intros Ha Hb H. unfold digit in H.
  apply (f_equal nat_of_ascii) in H.
  rewrite !nat_ascii_embedding in H by lia. lia.
Qed.

Lemma frac5_inj k k' :
  (0 <= k < 100000)%Z -> (0 <= k' < 100000)%Z -> frac5 k = frac5 k' -> k = k'.
Proof.
  intros Hk Hk' H. unfold frac5 in H.
  injection H as H4 H3 H2 H1 H0.
  apply digit_inj in H4, H3, H2, H1, H0;
    try (apply Z.mod_pos_bound; lia).
  Z.to_euclidean_division_equations. lia.
Qed.

(** A numeral, a point and a rest can be told apart in one way only. *)
Lemma split_at_point s1 : forall s2 t1 t2,
  all_digits s1 = true -> all_digits s2 = true ->
  (s1 ++ String "." t1 = s2 ++ String "." t2)%string -> s1 = s2 /\ t1 = t2.
Proof.
  induction s1 as [|c s1 IH]; intros [|c' s2] t1 t2 H1 H2 H;
    cbn [append all_digits] in *.
  - injection H as H. tauto.
  - injection H as Hc _. subst c'. discriminate H2.
  - injection H as Hc _. subst c. discriminate H1.
  - injection H as Hc H. subst c'.
    apply andb_prop in H1, H2.
    destruct (IH s2 t1 t2) as [-> ->]; tauto.
Qed.

Lemma fixed5_inj b b' n n' :
  (0 <= n)%Z -> (0 <= n')%Z -> fixed5 b n = fixed5 b' n' -> b = b' /\ n = n'.
Proof.
  intros Hn Hn' H. unfold fixed5 in H.
  assert (Hbody : forall m m',
    (0 <= m)%Z -> (0 <= m')%Z ->
    (digits (m / 100000) ++ "." ++ frac5 (m mod 100000)
     = digits (m' / 100000) ++ "." ++ frac5 (m' mod 100000))%string -> m = m').
  { intros m m' Hm Hm' E.
    apply split_at_point in E as [Ed Ef]; try apply digits_all_digits.
    apply digits_inj in Ed; try (apply Z.div_pos; lia).
    apply frac5_inj in Ef; try (apply Z.mod_pos_bound; lia).
    rewrite (Z.div_mod m 100000), (Z.div_mod m' 100000) by lia. congruence. }
  destruct b, b'; cbn [append] in H.
  - injection H as H. split; [reflexivity | apply Hbody; assumption].
  - exfalso. destruct (digits_head (n' / 100000)) as (c & s & E & Hc).
    rewrite E in H. cbn [append] in H. injection H as Hch _. subst c.
    discriminate Hc.
  - exfalso. destruct (digits_head (n / 100000)) as (c & s & E & Hc).
    rewrite E in H. cbn [append] in H. injection H as Hch _. subst c.
    discriminate Hc.
  - split; [reflexivity | apply Hbody; assumption].
Qed.

Lemma is_negative_false x : is_negative x = false -> (0 <= x)%Q.
Proof.
  unfold is_negative. destruct (Qcompare x 0) eqn:Hc; try discriminate; intros _.
  - apply Qeq_alt in Hc. Lqa.lra.
  - apply Qgt_alt in Hc. Lqa.lra.
Qed.

Lemma is_negative_true x : is_negative x = true -> (x < 0)%Q.
Proof.
  unfold is_negative. destruct (Qcompare x 0) eqn:Hc; try discriminate; intros _.
  apply Qlt_alt in Hc. exact Hc.
Qed.

Lemma Qabs_nonneg_eq x : (0 <= x)%Q -> Qabs x = x.
Proof.
  destruct x as [n d]. unfold Qle, Qabs. cbn [Qnum Qden Z.mul].
  intros H. f_equal. lia.
Qed.

(** What a printed number says about the value printed. *)
Lemma format_5f_sound x b n :
  (0 <= n)%Z -> format_5f x = fixed5 b n ->
  is_negative x = b /\ (Qabs (Qabs x * 100000 - inject_Z n) <= 1 # 2)%Q.
Proof.
  intros Hn H. unfold format_5f in H.
  assert (Hx : (0 <= Qabs x * 100000)%Q).
  { pose proof (Qabs_nonneg x). Lqa.nra. }
  apply fixed5_inj in H as [Hneg Hr];
    [| apply round_half_even_nonneg; exact Hx | exact Hn].
  split; [exact Hneg|]. rewrite <- Hr. apply round_half_even_bound.
Qed.

(** A value that prints without a sign as [n] hundred-thousandths lies
    within half a hundred-thousandth of it. *)
Lemma format_5f_nonneg x n :
  (0 <= n)%Z -> format_5f x = fixed5 false n ->
  (inject_Z n - (1 # 2) <= x * 100000 <= inject_Z n + (1 # 2))%Q.
Proof.
  intros Hn H. apply format_5f_sound in H as [Hneg Hb]; [|exact Hn].
  apply is_negative_false in Hneg.
  rewrite (Qabs_nonneg_eq x) in Hb by exact Hneg.
  apply Qabs_Qle_condition in Hb. Lqa.lra.
Qed.

(** And one that prints with a minus sign lies as close to [- n]. *)
Lemma format_5f_negative x n :
  (0 <= n)%Z -> format_5f x = fixed5 true n ->
  (- inject_Z n - (1 # 2) <= x * 100000 <= - inject_Z n + (1 # 2))%Q.
Proof.
  intros Hn H. apply format_5f_sound in H as [Hneg Hb]; [|exact Hn].
  apply is_negative_true in Hneg.
  rewrite (Qabs_neg x) in Hb by Lqa.lra.
  apply Qabs_Qle_condition in Hb. Lqa.lra.
Qed.

(** ** Every run of the notebook

    The cells are executed symbolically against an arbitrary library: at
    each request the library either answers, and the run goes on, or
    raises, and the run is over. *)

Ltac nb_unfold :=
  cbv [run_notebook notebook run_cells enter initial
       cell1 cell2 cell3 cell4 cell5 cell6 cell7
       assign store_all store bind_name log load deref lib_new lib_do
       name num int str eval_args eval_kwargs list_of mul xor add sub attr call
       is_solver method set_attr fields fstring print
       import_as import_module import_names from_import magic bind ret raise
       ns heap lib_state trace cell
       String.eqb Ascii.eqb Bool.eqb andb app length nth_error
       fst snd eigenvalue optimal_parameters].

Ltac ns_step :=
  first [ rewrite lookup_insert_eq
        | rewrite lookup_insert_ne by discriminate ].

Ltac nb_run := repeat (repeat ns_step; nb_unfold).

Ltac lib_step :=
  match goal with
  | |- context [match ?X with _ => _ end] =>
      lazymatch X with
      | lib_import _ _ _ => destruct X as [[[]|?e] ?w] eqn:?E
      | lib_import_from _ _ _ _ => destruct X as [[[]|?e] ?w] eqn:?E
      | lib_construct _ _ _ _ _ _ => destruct X as [[[]|?e] ?w] eqn:?E
      | lib_get_backend _ _ _ => destruct X as [[[]|?e] ?w] eqn:?E
      | lib_set_attr _ _ _ _ _ => destruct X as [[[]|?e] ?w] eqn:?E
      | lib_magic _ _ _ => destruct X as [[[]|?e] ?w] eqn:?E
      | lib_solve _ _ _ _ _ => destruct X as [[?r|?e] ?w] eqn:?E
      end
  end.

Ltac halted :=
  nb_run; unfold run_ok, H2_op_bound_once; split; [| split];
  [ cbn [trace ends_in_raise raises];
    repeat (split; [reflexivity | split; [apply Nat.leb_le; reflexivity |]]);
    split; [reflexivity | eexists; reflexivity]
  | cbn [ns trace];
    first
      [ right; split; [reflexivity |];
        split; [repeat (rewrite lookup_insert_ne by discriminate); apply lookup_empty
               | reflexivity]
      | left; split; [repeat ns_step; reflexivity | reflexivity] ]
  | cbv [solved_operators flat_map snd app trace]; repeat constructor ].

Lemma run_cases {world : Type} (L : library world) (fsub : Q -> Q -> Q) (w : world) :
  run_ok fsub (run_notebook L fsub w).
Proof.
  nb_unfold.
  do 36 (nb_run; lib_step; [| halted]).
  nb_run.
  unfold run_ok. exists r, r0, r1. unfold completed_with. cbn [ns heap trace].
  split; [|split].
  - vm_compute. reflexivity.
  - reflexivity.
  - reflexivity.
Qed.

Lemma run_completed {world : Type} (L : library world) fsub (w : world) st :
  run_notebook L fsub w = (Completed, st) ->
  exists r_ref r_vqe r_iqpe, completed_with fsub r_ref r_vqe r_iqpe st.
Proof.
  intros H. pose proof (run_cases L fsub w) as Hr. rewrite H in Hr. exact Hr.
Qed.

Lemma run_halted {world : Type} (L : library world) fsub (w : world) k e st :
  run_notebook L fsub w = (Halted k e, st) ->
  ends_in_raise k e (trace st) /\
  H2_op_bound_once k st /\
  Forall (fun A => A = H2_op) (solved_operators (trace st)).
Proof.
  intros H. pose proof (run_cases L fsub w) as Hr. rewrite H in Hr. exact Hr.
Qed.

(** The log of a halted run, read from its end. *)
Lemma ends_in_raise_split k e tr :
  ends_in_raise k e tr ->
  exists t req,
    tr = t ++ [(k, ELib req (Raise e))] /\
    Forall (fun ke => raises (snd ke) = false /\ (fst ke <= k)%nat) t.
Proof.
  induction tr as [|[k' ev] tr IH]; [intros []|].
  cbn [ends_in_raise]. destruct tr as [|x tr'].
  - intros [-> [req ->]]. exists [], req. split; [reflexivity | constructor].
  - intros (Hev & Hk & Hrest).
    destruct (IH Hrest) as (t & req & Ht & Hall).
    exists ((k', ev) :: t), req. split.
    + rewrite Ht. reflexivity.
    + constructor; [split; assumption | exact Hall].
Qed.

Lemma completed_trace_no_raise fsub r_ref r_vqe r_iqpe :
  forallb (fun ke => negb (raises (snd ke)))
    (completed_trace fsub r_ref r_vqe r_iqpe) = true.
Proof. reflexivity. Qed.

(** ** Claims about the operator *)

(** C2: the lowest eigenvalue of the two-qubit matrix of [H2_op], which is
    what the exact solver computes, is within half a unit of the fifth
    decimal of -1.85728. *)
Theorem exact_reference_value :
  num_qubits H2_op = Some 2 /\
  is_real (to_matrix 2 H2_op) = true /\
  is_min_eigenvalue (real_matrix (to_matrix 2 H2_op)) H2_ground /\
  (Rabs (H2_ground - (-1.85728)) < 0.000005)%R.
Proof.
  split; [reflexivity|]. split; [exact H2_matrix_real|].
  split; [exact H2_ground_is_min|].
  pose proof H2_ground_bounds as Hb.
  apply Rabs_def1; lra.
Qed.

Lemma sample_run_eq :
  run_notebook sample_library Qminus tt = (Completed, sample_state).
Proof. vm_compute. reflexivity. Qed.

Lemma failed_run_eq :
  run_notebook (failing VQE) Qminus tt = (Halted 4 "AquaError", failed_state).
Proof. vm_compute. reflexivity. Qed.

Lemma completed_written_H2 fsub r1 r2 r3 :
  written "H2_op" (completed_trace fsub r1 r2 r3) = [VOp H2_op].
Proof. reflexivity. Qed.

Lemma completed_solved_operators fsub r1 r2 r3 :
  solved_operators (completed_trace fsub r1 r2 r3) = [H2_op; H2_op; H2_op].
Proof. reflexivity. Qed.

(** C7: [H2_op] is the sum of five weighted two-qubit strings over I, X and
    Z with the coefficients of the source, and in every run, completed or
    halted, every solver is handed that operator and the name is bound
    once, to that operator.  The one exception is a run that a failed
    import stopped in cell 1, before cell 2 could construct the operator:
    there the name is not bound at all. *)
Theorem H2_op_fixed_and_never_modified :
  H2_op =
    [ Term (-1.052373245772859) [Pauli.I; Pauli.I];
      Term 0.39793742484318045 [Pauli.I; Pauli.Z];
      Term (-0.39793742484318045) [Pauli.Z; Pauli.I];
      Term (-0.01128010425623538) [Pauli.Z; Pauli.Z];
      Term 0.18093119978423156 [Pauli.X; Pauli.X] ] /\
  num_qubits H2_op = Some 2 /\
  uses_only [Pauli.I; Pauli.X; Pauli.Z] H2_op = true /\
  forall (world : Type) (L : library world) (fsub : Q -> Q -> Q) (w : world),
    let r := run_notebook L fsub w in
    let st := snd r in
    (ns st !! "H2_op" = Some (VOp H2_op) /\
     written "H2_op" (trace st) = [VOp H2_op]
     \/
     (exists e, fst r = Halted 1 e) /\
     ns st !! "H2_op" = None /\
     written "H2_op" (trace st) = []) /\
    Forall (fun A => A = H2_op) (solved_operators (trace st)).
Proof.
  split; [exact H2_op_terms|]. split; [reflexivity|]. split; [reflexivity|].
  intros world L fsub w.
  pose proof (run_cases L fsub w) as Hr.
  destruct (run_notebook L fsub w) as [[|k e] st]; cbn [fst snd]; unfold run_ok in Hr.
  - destruct Hr as (r1 & r2 & r3 & Hns & _ & Htr).
    rewrite Hns, Htr, completed_written_H2, completed_solved_operators.
    split; [left; split; reflexivity | repeat constructor].
  - destruct Hr as (_ & [Hb | (-> & Hn & Hw)] & Hs).
    + split; [left; exact Hb | exact Hs].
    + split; [right; split; [exists e; reflexivity | split; assumption] | exact Hs].
Qed.

(** ** Claims about completed runs *)

Lemma completed_solve_calls {world : Type} fsub r1 r2 r3 (st : state world) :
  completed_with fsub r1 r2 r3 st ->
  solve_calls st = [(NumPyMinimumEigensolver, 0, 1); (VQE, 6, 7); (IQPE, 10, 11)]%nat.
Proof.
  intros (_ & Hh & Ht). unfold solve_calls. rewrite Hh, Ht. reflexivity.
Qed.

Lemma completed_solved_by {world : Type} fsub r1 r2 r3 (st : state world) :
  completed_with fsub r1 r2 r3 st ->
  solved_by NumPyMinimumEigensolver st = Some r1 /\
  solved_by VQE st = Some r2 /\
  solved_by IQPE st = Some r3.
Proof.
  intros H. pose proof (completed_solve_calls _ _ _ _ _ H) as Hc.
  destruct H as (_ & Hh & _).
  unfold solved_by, solve_result, solve_call. rewrite Hc, Hh.
  repeat split; reflexivity.
Qed.

Lemma completed_ns_lookup r x v :
  completed_ns r !! x = Some v -> In (x, v) (completed_bindings r).
Proof.
  intros H. apply elem_of_list_to_map_2 in H. apply list_elem_of_In. exact H.
Qed.

(** C9: once the notebook has completed, [result_vqe] and [result_iqpe]
    name the same object, the one the IQPE solver returned; the object the
    VQE solver returned, to which [result_vqe] was bound first, is a
    different one and no name of the notebook is bound to it any more. *)
Theorem result_vqe_rebound_to_iqpe_result
    {world : Type} (L : library world) (fsub : Q -> Q -> Q) (w : world) st :
  run_notebook L fsub w = (Completed, st) ->
  exists a_vqe a_iqpe,
    solve_result VQE st = Some a_vqe /\
    solve_result IQPE st = Some a_iqpe /\
    a_vqe <> a_iqpe /\
    written "result_vqe" (trace st) = [VRef a_vqe; VRef a_iqpe] /\
    written "result_iqpe" (trace st) = [VRef a_iqpe] /\
    ns st !! "result_vqe" = Some (VRef a_iqpe) /\
    ns st !! "result_iqpe" = Some (VRef a_iqpe) /\
    forall x, ns st !! x <> Some (VRef a_vqe).
Proof.
  intros Hrun. destruct (run_completed L fsub w st Hrun) as (r1 & r2 & r3 & Hc).
  pose proof (completed_solve_calls _ _ _ _ _ Hc) as Hs.
  destruct Hc as (Hns & Hh & Ht).
  exists 7%nat, 11%nat.
  unfold solve_result, solve_call. rewrite Hs, Hns, Ht.
  split; [reflexivity|]. split; [reflexivity|]. split; [discriminate|].
  split; [reflexivity|]. split; [reflexivity|]. split; [reflexivity|].
  split; [reflexivity|].
  intros x Hx. apply completed_ns_lookup in Hx.
  cbn [completed_bindings imported app In] in Hx.
  repeat (destruct Hx as [Hx | Hx]; [discriminate Hx |]). exact Hx.
Qed.

Lemma result_vqe_rebound_witness :
  exists a_vqe a_iqpe,
    solve_result VQE sample_state = Some a_vqe /\
    solve_result IQPE sample_state = Some a_iqpe /\
    a_vqe <> a_iqpe /\
    written "result_vqe" (trace sample_state) = [VRef a_vqe; VRef a_iqpe] /\
    written "result_iqpe" (trace sample_state) = [VRef a_iqpe] /\
    ns sample_state !! "result_vqe" = Some (VRef a_iqpe) /\
    ns sample_state !! "result_iqpe" = Some (VRef a_iqpe) /\
    forall x, ns sample_state !! x <> Some (VRef a_vqe).
Proof.
  exact (result_vqe_rebound_to_iqpe_result
           sample_library Qminus tt
           sample_state sample_run_eq).
Defined.

(** C10: the VQE solver was constructed with a quantum instance that has
    no [shots] argument, the IQPE solver with another one that has
    [shots=100]; both instances were built on the one [qasm_simulator]
    backend with [seed_simulator=5] and [seed_transpiler=5]. *)
Theorem solvers_run_on_different_quantum_instances
    {world : Type} (L : library world) (fsub : Q -> Q -> Q) (w : world) st :
  run_notebook L fsub w = (Completed, st) ->
  exists a_vqe a_iqpe q_vqe q_iqpe b kw_vqe kw_iqpe,
    solver_of VQE st = Some a_vqe /\
    solver_of IQPE st = Some a_iqpe /\
    kwarg_object (heap st) a_vqe "quantum_instance"
      = Some (q_vqe, Instance QuantumInstance [VRef b] kw_vqe) /\
    kwarg_object (heap st) a_iqpe "quantum_instance"
      = Some (q_iqpe, Instance QuantumInstance [VRef b] kw_iqpe) /\
    q_vqe <> q_iqpe /\
    nth_error (heap st) b = Some (Backend "qasm_simulator") /\
    kwarg "shots" kw_vqe = None /\
    kwarg "shots" kw_iqpe = Some (VInt 100) /\
    kwarg "seed_simulator" kw_vqe = Some (VInt 5) /\
    kwarg "seed_transpiler" kw_vqe = Some (VInt 5) /\
    kwarg "seed_simulator" kw_iqpe = Some (VInt 5) /\
    kwarg "seed_transpiler" kw_iqpe = Some (VInt 5).
Proof.
  intros Hrun. destruct (run_completed L fsub w st Hrun) as (r1 & r2 & r3 & Hc).
  pose proof (completed_solve_calls _ _ _ _ _ Hc) as Hs.
  destruct Hc as (Hns & Hh & Ht).
  exists 6%nat, 10%nat, 5%nat, 9%nat, 4%nat, qi_vqe_kwargs, qi_iqpe_kwargs.
  unfold solver_of, solve_call. rewrite Hs, Hh.
  split; [reflexivity|]. split; [reflexivity|]. split; [reflexivity|].
  split; [reflexivity|]. split; [discriminate|]. repeat split.
Qed.

Lemma solvers_run_on_different_quantum_instances_witness :
  exists a_vqe a_iqpe q_vqe q_iqpe b kw_vqe kw_iqpe,
    solver_of VQE sample_state = Some a_vqe /\
    solver_of IQPE sample_state = Some a_iqpe /\
    kwarg_object (heap sample_state) a_vqe "quantum_instance"
      = Some (q_vqe, Instance QuantumInstance [VRef b] kw_vqe) /\
    kwarg_object (heap sample_state) a_iqpe "quantum_instance"
      = Some (q_iqpe, Instance QuantumInstance [VRef b] kw_iqpe) /\
    q_vqe <> q_iqpe /\
    nth_error (heap sample_state) b = Some (Backend "qasm_simulator") /\
    kwarg "shots" kw_vqe = None /\
    kwarg "shots" kw_iqpe = Some (VInt 100) /\
    kwarg "seed_simulator" kw_vqe = Some (VInt 5) /\
    kwarg "seed_transpiler" kw_vqe = Some (VInt 5) /\
    kwarg "seed_simulator" kw_iqpe = Some (VInt 5) /\
    kwarg "seed_transpiler" kw_iqpe = Some (VInt 5).
Proof.
  exact (solvers_run_on_different_quantum_instances
           sample_library Qminus tt
           sample_state sample_run_eq).
Defined.




Lemma rebindings_spec bs x k1 k2 :
  In (x, k1, k2) (rebindings bs) <->
  (k1 < k2)%nat /\ In (k1, x) bs /\ In (k2, x) bs.
Proof.
  unfold rebindings. rewrite in_flat_map. split.
  - intros ([a y] & Hp & Hin). rewrite in_flat_map in Hin.
    destruct Hin as ([b z] & Hq & Hin). cbn [fst snd] in Hin.
    destruct ((a <? b)%nat && String.eqb y z) eqn:Hc; [|destruct Hin].
    destruct Hin as [Heq | []]. injection Heq as -> -> ->.
    apply andb_prop in Hc as [Hlt Hyz].
    apply Nat.ltb_lt in Hlt. apply String.eqb_eq in Hyz. subst z.
    split; [exact Hlt|]. split; assumption.
  - intros (Hlt & H1 & H2). exists (k1, x). split; [exact H1|].
    rewrite in_flat_map. exists (k2, x). split; [exact H2|]. cbn [fst snd].
    apply Nat.ltb_lt in Hlt. rewrite Hlt, String.eqb_refl. left. reflexivity.
Qed.

Lemma completed_rebindings fsub r1 r2 r3 :
  rebindings (bindings (completed_trace fsub r1 r2 r3))
  = [("qi", 4, 6); ("result_vqe", 4, 6)]%nat%string.
Proof. vm_compute. reflexivity. Qed.

(** C6, as stated: in the sample run the seed is not written before every
    solver invocation, and the seed is not all that the cells share and
    change: cell 6 rebinds the name [qi] that cell 4 bound. *)
Lemma seed_only_shared_state_counterexample :
  run_notebook sample_library Qminus tt = (Completed, sample_state) /\
  ~ seed_set_once_before_solvers (trace sample_state) /\
  ~ no_other_shared_state (trace sample_state).
Proof.
  split; [exact sample_run_eq|]. split.
  - intros (i & Hw & Hall).
    vm_compute in Hw. injection Hw as <-.
    vm_compute in Hall. inversion Hall as [|j js Hlt _]. lia.
  - intros [_ Hno]. apply (Hno "qi"%string 4%nat 6%nat).
    split; [lia|]. split; vm_compute; tauto.
Qed.

(** C6, amended: a completed run writes one attribute of the library, the
    random seed, once, with the value 5; the write comes after the
    invocation of the exact solver and before those of VQE and IQPE.
    Besides the seed the cells share the names they bind, and two of
    these are changed by a later cell: [qi] and [result_vqe], bound in
    cell 4, are bound again in cell 6; no other name is bound in two
    cells. *)
Theorem seed_set_once_between_solvers
    {world : Type} (L : library world) (fsub : Q -> Q -> Q) (w : world) st :
  run_notebook L fsub w = (Completed, st) ->
  (exists i j_ref j_vqe j_iqpe,
    positions is_state_write (trace st) = [i] /\
    positions is_seed_write (trace st) = [i] /\
    nth_error (trace st) i
      = Some (4%nat, ELib (SetAttr "qiskit.aqua.aqua_globals" "random_seed" (VInt 5))
                          (Ok VNone)) /\
    positions is_solver_request (trace st) = [j_ref; j_vqe; j_iqpe] /\
    map (fun c => fst (fst c)) (solve_calls st) = [NumPyMinimumEigensolver; VQE; IQPE] /\
    (j_ref < i)%nat /\ (i < j_vqe)%nat /\ (j_vqe < j_iqpe)%nat) /\
  forall x k1 k2,
    rebound x k1 k2 (trace st) <->
    (x = "qi"%string \/ x = "result_vqe"%string) /\ k1 = 4%nat /\ k2 = 6%nat.
Proof.
  intros Hrun. destruct (run_completed L fsub w st Hrun) as (r1 & r2 & r3 & Hc).
  pose proof (completed_solve_calls _ _ _ _ _ Hc) as Hs.
  destruct Hc as (Hns & Hh & Ht).
  split.
  - exists 42%nat, 36%nat, 53%nat, 66%nat.
    rewrite Hs, Ht.
    split; [reflexivity|]. split; [reflexivity|]. split; [reflexivity|].
    split; [reflexivity|]. split; [reflexivity|]. lia.
  - intros x k1 k2. unfold rebound. rewrite <- rebindings_spec.
    rewrite Ht, completed_rebindings. cbn [In]. split.
    + intros [Heq | [Heq | []]]; injection Heq as <- <- <-; tauto.
    + intros ([-> | ->] & -> & ->); tauto.
Qed.

Lemma seed_set_once_between_solvers_witness :
  (exists i j_ref j_vqe j_iqpe,
    positions is_state_write (trace sample_state) = [i] /\
    positions is_seed_write (trace sample_state) = [i] /\
    nth_error (trace sample_state) i
      = Some (4%nat, ELib (SetAttr "qiskit.aqua.aqua_globals" "random_seed" (VInt 5))
                          (Ok VNone)) /\
    positions is_solver_request (trace sample_state) = [j_ref; j_vqe; j_iqpe] /\
    map (fun c => fst (fst c)) (solve_calls sample_state)
      = [NumPyMinimumEigensolver; VQE; IQPE] /\
    (j_ref < i)%nat /\ (i < j_vqe)%nat /\ (j_vqe < j_iqpe)%nat) /\
  forall x k1 k2,
    rebound x k1 k2 (trace sample_state) <->
    (x = "qi"%string \/ x = "result_vqe"%string) /\ k1 = 4%nat /\ k2 = 6%nat.
Proof.
  exact (seed_set_once_between_solvers sample_library Qminus tt sample_state sample_run_eq).
Defined.

(** ** Claims about halted runs *)

(** C8: in every run, a library request answered by an exception is the
    last entry of the log, the run is halted in the cell that made the
    request, with that exception, and no entry before it is an exception
    or belongs to a later cell: nothing is caught, retried or run after. *)
Theorem exceptions_propagate_uncaught
    {world : Type} (L : library world) (fsub : Q -> Q -> Q) (w : world)
    o st k req e :
  run_notebook L fsub w = (o, st) ->
  In (k, ELib req (Raise e)) (trace st) ->
  o = Halted k e /\
  exists t,
    trace st = t ++ [(k, ELib req (Raise e))] /\
    Forall (fun ke => raises (snd ke) = false /\ (fst ke <= k)%nat) t.
Proof.
  intros Hrun Hin. pose proof (run_cases L fsub w) as Hr.
  rewrite Hrun in Hr. destruct o as [|k' e']; unfold run_ok in Hr.
  - exfalso. destruct Hr as (r1 & r2 & r3 & _ & _ & Ht). rewrite Ht in Hin.
    pose proof (completed_trace_no_raise fsub r1 r2 r3) as Hno.
    rewrite forallb_forall in Hno. specialize (Hno _ Hin). discriminate Hno.
  - destruct Hr as (Hend & _).
    apply ends_in_raise_split in Hend as (t & req' & Ht & Hall).
    rewrite Ht in Hin. apply in_app_or in Hin as [Hin | Hin].
    + exfalso. rewrite Forall_forall in Hall.
      apply list_elem_of_In in Hin. destruct (Hall _ Hin) as [Hno _].
      discriminate Hno.
    + destruct Hin as [Heq | []]. injection Heq as -> -> ->.
      split; [reflexivity|]. exists t. split; assumption.
Qed.

Lemma exceptions_propagate_uncaught_witness :
  Halted 4 "AquaError" = Halted 4 "AquaError" /\
  exists t,
    trace failed_state
      = t ++ [(4%nat, ELib (ComputeMinimumEigenvalue 6 H2_op) (Raise "AquaError"))] /\
    Forall (fun ke => raises (snd ke) = false /\ (fst ke <= 4)%nat) t.
Proof.
  apply (exceptions_propagate_uncaught (failing VQE) Qminus tt
           (Halted 4 "AquaError") failed_state 4%nat
           (ComputeMinimumEigenvalue 6 H2_op) "AquaError" failed_run_eq).
  vm_compute. do 53 right. left. reflexivity.
Defined.

(** A run halts only because a request to the library raised, be it the
    loading of a module, the fetching of a name from it, a construction, a
    solver call, the write of the seed or a magic: no statement of the
    notebook fails on its own. *)
Lemma halted_by_library
    {world : Type} (L : library world) (fsub : Q -> Q -> Q) (w : world) k e st :
  run_notebook L fsub w = (Halted k e, st) ->
  exists req, In (k, ELib req (Raise e)) (trace st).
Proof.
  intros Hrun. destruct (run_halted L fsub w k e st Hrun) as (Hend & _).
  apply ends_in_raise_split in Hend as (t & req & Ht & _).
  exists req. rewrite Ht. apply in_or_app. right. left. reflexivity.
Qed.

(** ** The recorded run *)

Lemma completed_stdout {world : Type} fsub r1 r2 r3 (st : state world) :
  completed_with fsub r1 r2 r3 st ->
  stdout st =
  [ "Reference value: " ++ format_5f (fst (eigenvalue r1));
    "VQE estimated the ground energy to be " ++ format_5f (fst (eigenvalue r2));
    "Delta from reference energy value is "
      ++ format_5f (fsub (fst (eigenvalue r2)) (fst (eigenvalue r1)));
    "Continuing with VQE's result, IQPE estimated the ground energy to be "
      ++ format_5f (fst (eigenvalue r3));
    "Delta from reference energy value is "
      ++ format_5f (fsub (fst (eigenvalue r3)) (fst (eigenvalue r1))) ]%string.
Proof.
  intros (_ & _ & Ht). unfold stdout. rewrite Ht. reflexivity.
Qed.

Lemma printed_0_11664 : fixed5 false 11664 = "0.11664"%string.
Proof. vm_compute. reflexivity. Qed.

Lemma printed_0_00811 : fixed5 false 811 = "0.00811"%string.
Proof. vm_compute. reflexivity. Qed.

(** From a rounded difference back to the difference. *)
Lemma correctly_rounded_bounds fsub a b lo hi :
  correctly_rounded fsub ->
  (0 < lo)%Q -> (lo <= fsub a b <= hi)%Q ->
  (lo * (1 - (1 # 1000000)) <= Qabs (a - b) <= hi * (1 + (1 # 1000000)))%Q.
Proof.
  intros Hr Hlo [H1 H2]. specialize (Hr a b).
  set (d := fsub a b) in *. set (x := (a - b)%Q) in *. clearbody d x.
  apply Qabs_Qle_condition in Hr.
  destruct (Qlt_le_dec x 0) as [Hneg | Hpos].
  - rewrite (Qabs_neg x) in * by Lqa.lra. Lqa.lra.
  - rewrite (Qabs_pos x) in * by Lqa.lra. Lqa.lra.
Qed.

(** In every completed run whose output is the recorded one, the
    eigenvalue returned by IQPE is strictly closer to the one returned by
    the exact solver than the eigenvalue returned by VQE is. *)
Theorem iqpe_closer_to_reference_than_vqe
    {world : Type} (L : library world) (fsub : Q -> Q -> Q) (w : world) st :
  correctly_rounded fsub ->
  run_notebook L fsub w = (Completed, st) ->
  stdout st = recorded_output ->
  exists r_ref r_vqe r_iqpe,
    solved_by NumPyMinimumEigensolver st = Some r_ref /\
    solved_by VQE st = Some r_vqe /\
    solved_by IQPE st = Some r_iqpe /\
    (Qabs (fst (eigenvalue r_iqpe) - fst (eigenvalue r_ref))
     < Qabs (fst (eigenvalue r_vqe) - fst (eigenvalue r_ref)))%Q.
Proof.
  intros Hfsub Hrun Hout.
  destruct (run_completed L fsub w st Hrun) as (r1 & r2 & r3 & Hc).
  destruct (completed_solved_by _ _ _ _ _ Hc) as (S1 & S2 & S3).
  rewrite (completed_stdout _ _ _ _ _ Hc) in Hout.
  exists r1, r2, r3. repeat (split; [assumption|]).
  unfold recorded_output in Hout.
  injection Hout as _ _ Hvqe _ Hiqpe.
  cbn [String.append] in Hvqe, Hiqpe.
  rewrite <- printed_0_11664 in Hvqe. rewrite <- printed_0_00811 in Hiqpe.
  apply format_5f_nonneg in Hvqe; [|lia].
  apply format_5f_nonneg in Hiqpe; [|lia].
  unfold inject_Z in Hvqe, Hiqpe.
  destruct (correctly_rounded_bounds fsub (fst (eigenvalue r2)) (fst (eigenvalue r1))
              (116635 # 1000000) (116645 # 1000000) Hfsub) as [Bv _];
    [Lqa.lra | Lqa.lra |].
  destruct (correctly_rounded_bounds fsub (fst (eigenvalue r3)) (fst (eigenvalue r1))
              (8105 # 1000000) (8115 # 1000000) Hfsub) as [_ Bi];
    [Lqa.lra | Lqa.lra |].
  Lqa.lra.
Qed.

Lemma Qminus_correctly_rounded : correctly_rounded Qminus.
Proof.
  intros a b. pose proof (Qabs_nonneg (a - b)) as Hn.
  apply Qabs_Qle_condition. split; Lqa.lra.
Qed.

Lemma sample_stdout : stdout sample_state = recorded_output.
Proof. vm_compute. reflexivity. Qed.

Lemma iqpe_closer_to_reference_than_vqe_witness :
  exists r_ref r_vqe r_iqpe,
    solved_by NumPyMinimumEigensolver sample_state = Some r_ref /\
    solved_by VQE sample_state = Some r_vqe /\
    solved_by IQPE sample_state = Some r_iqpe /\
    (Qabs (fst (eigenvalue r_iqpe) - fst (eigenvalue r_ref))
     < Qabs (fst (eigenvalue r_vqe) - fst (eigenvalue r_ref)))%Q.
Proof.
  exact (iqpe_closer_to_reference_than_vqe sample_library Qminus tt sample_state
           Qminus_correctly_rounded sample_run_eq sample_stdout).
Defined.

(** Which of the two solvers comes closer is decided by what the library
    returns, not by the notebook: with a library whose VQE and IQPE
    solvers return each other's sample values the run completes just the
    same, and VQE is the closer one. *)
Lemma closer_solver_depends_on_library :
  run_notebook (replay sample_ref sample_iqpe sample_vqe) Qminus tt
    = (Completed, swapped_state) /\
  solved_by NumPyMinimumEigensolver swapped_state = Some sample_ref /\
  solved_by VQE swapped_state = Some sample_iqpe /\
  solved_by IQPE swapped_state = Some sample_vqe /\
  (Qabs (fst (eigenvalue sample_iqpe) - fst (eigenvalue sample_ref))
   < Qabs (fst (eigenvalue sample_vqe) - fst (eigenvalue sample_ref)))%Q.
Proof.
  split; [vm_compute; reflexivity|].
  split; [vm_compute; reflexivity|].
  split; [vm_compute; reflexivity|].
  split; [vm_compute; reflexivity|].
  vm_compute. reflexivity.
Qed.

(** ** What the recorded output says about the two quantum solvers

    The values VQE and IQPE return are computed by the library, not by the
    notebook; the notebook only prints them.  In a run that printed what
    the notebook file records, they were as follows. *)

Lemma printed_m1_74063 : fixed5 true 174063 = "-1.74063"%string.
Proof. vm_compute. reflexivity. Qed.

Lemma printed_m1_84917 : fixed5 true 184917 = "-1.84917"%string.
Proof. vm_compute. reflexivity. Qed.

Lemma vqe_value_as_recorded
    {world : Type} (L : library world) (fsub : Q -> Q -> Q) (w : world) st :
  run_notebook L fsub w = (Completed, st) ->
  stdout st = recorded_output ->
  exists a r,
    solver_of VQE st = Some a /\
    kwarg_object (heap st) a "var_form" = Some (2%nat, Instance TwoLocal [] two_local_kwargs) /\
    kwarg_object (heap st) a "optimizer"
      = Some (3%nat, Instance SPSA [] [("maxiter", VInt 10)]) /\
    kwarg_object (heap st) a "quantum_instance"
      = Some (5%nat, Instance QuantumInstance [VRef 4] qi_vqe_kwargs) /\
    solved_by VQE st = Some r /\
    (Qabs (fst (eigenvalue r) - (-1.74063)) <= 0.000005)%Q.
Proof.
  intros Hrun Hout.
  destruct (run_completed L fsub w st Hrun) as (r1 & r2 & r3 & Hc).
  destruct (completed_solved_by _ _ _ _ _ Hc) as (S1 & S2 & S3).
  pose proof (completed_solve_calls _ _ _ _ _ Hc) as Hs.
  rewrite (completed_stdout _ _ _ _ _ Hc) in Hout.
  destruct Hc as (_ & Hh & _).
  exists 6%nat, r2. unfold solver_of, solve_call. rewrite Hs, Hh.
  repeat (split; [first [reflexivity | assumption] |]).
  unfold recorded_output in Hout. injection Hout as _ Hv _ _ _.
  cbn [String.append] in Hv. rewrite <- printed_m1_74063 in Hv.
  apply format_5f_negative in Hv; [|lia]. unfold inject_Z in Hv.
  apply Qabs_Qle_condition. split; Lqa.lra.
Qed.

Lemma iqpe_value_as_recorded
    {world : Type} (L : library world) (fsub : Q -> Q -> Q) (w : world) st :
  run_notebook L fsub w = (Completed, st) ->
  stdout st = recorded_output ->
  exists a r_vqe r,
    solver_of IQPE st = Some a /\
    nth_error (heap st) a = Some (Instance IQPE [] iqpe_kwargs) /\
    solved_by VQE st = Some r_vqe /\
    kwarg_object (heap st) a "state_in"
      = Some (8%nat, Instance VarFormBased [VRef 2; optimal_parameters r_vqe] []) /\
    solved_by IQPE st = Some r /\
    (Qabs (fst (eigenvalue r) - (-1.84917)) <= 0.000005)%Q.
Proof.
  intros Hrun Hout.
  destruct (run_completed L fsub w st Hrun) as (r1 & r2 & r3 & Hc).
  destruct (completed_solved_by _ _ _ _ _ Hc) as (S1 & S2 & S3).
  pose proof (completed_solve_calls _ _ _ _ _ Hc) as Hs.
  rewrite (completed_stdout _ _ _ _ _ Hc) in Hout.
  destruct Hc as (_ & Hh & _).
  exists 10%nat, r2, r3. unfold solver_of, solve_call. rewrite Hs, Hh.
  repeat (split; [first [reflexivity | assumption] |]).
  unfold recorded_output in Hout. injection Hout as _ _ _ Hv _.
  cbn [String.append] in Hv. rewrite <- printed_m1_84917 in Hv.
  apply format_5f_negative in Hv; [|lia]. unfold inject_Z in Hv.
  apply Qabs_Qle_condition. split; Lqa.lra.
Qed.


(** * Further properties *)

(** ** Every run, in more detail *)

Ltac with_results tac :=
  first
    [ match goal with a : result, b : result, c : result |- _ => tac a b c end
    | match goal with a : result, b : result |- _ => tac a b default_result end
    | match goal with a : result |- _ => tac a default_result default_result end
    | tac default_result default_result default_result ].

Ltac script_prefix :=
  lazymatch goal with
  | |- follows_script _ _ _ ?tr =>
      let n := eval lazy in (pred (length tr)) in
      with_results ltac:(fun a b c =>
        exists a, b, c, n; eexists; eexists; split; reflexivity)
  end.

Ltac halted_detail :=
  nb_run; unfold run_detail; cbn [trace heap]; split; [| split];
  [ script_prefix
  | reflexivity
  | intros Hk; first
      [ discriminate Hk
      | split; [reflexivity |];
        cbn [ns]; split;
        [ repeat ns_step; reflexivity
        | repeat (rewrite lookup_insert_ne by discriminate); apply lookup_empty ] ] ].

Lemma run_cases_detail {world : Type} (L : library world) (fsub : Q -> Q -> Q) (w : world) :
  run_detail fsub (run_notebook L fsub w).
Proof.
  nb_unfold.
  do 36 (nb_run; lib_step; [| halted_detail]).
  nb_run. exact I.
Qed.


Lemma failed_iqpe_run_eq :
  run_notebook (failing IQPE) Qminus tt = (Halted 6 "AquaError", failed_iqpe_state).
Proof. vm_compute. reflexivity. Qed.

Lemma printed_app a b : printed (a ++ b) = printed a ++ printed b.
Proof. unfold printed. apply flat_map_app. Qed.

Lemma completed_printed fsub r1 r2 r3 :
  printed (completed_trace fsub r1 r2 r3) = completed_output fsub r1 r2 r3.
Proof. reflexivity. Qed.

(** Until the first exception a run does what a completed run does: the
    log of a halted run is an initial part of the log of a completed run,
    cut at a library request, followed by that request raising. *)
Theorem halted_run_follows_completed_prefix
    {world : Type} (L : library world) (fsub : Q -> Q -> Q) (w : world) k e st :
  run_notebook L fsub w = (Halted k e, st) ->
  follows_script fsub k e (trace st).
Proof.
  intros Hrun. pose proof (run_cases_detail L fsub w) as Hd.
  rewrite Hrun in Hd. exact (proj1 Hd).
Qed.

Lemma halted_run_follows_completed_prefix_witness :
  follows_script Qminus 4 "AquaError" (trace failed_state).
Proof.
  exact (halted_run_follows_completed_prefix (failing VQE) Qminus tt
           4%nat "AquaError"%string failed_state failed_run_eq).
Defined.

(** What a halted run has printed is an initial part of what a completed
    run prints: the lines of the cells that ran stay, nothing else is
    written. *)
Theorem halted_output_is_prefix
    {world : Type} (L : library world) (fsub : Q -> Q -> Q) (w : world) k e st :
  run_notebook L fsub w = (Halted k e, st) ->
  exists r_ref r_vqe r_iqpe,
    stdout st `prefix_of` completed_output fsub r_ref r_vqe r_iqpe.
Proof.
  intros Hrun. pose proof (run_cases_detail L fsub w) as Hd.
  rewrite Hrun in Hd. destruct Hd as [(r1 & r2 & r3 & n & req & v & Ht & _) _].
  exists r1, r2, r3.
  change (stdout st) with (printed (trace st)).
  rewrite Ht, printed_app. cbn [printed flat_map snd app]. rewrite app_nil_r.
  rewrite <- completed_printed.
  rewrite <- (firstn_skipn n (completed_trace fsub r1 r2 r3)) at 2.
  rewrite printed_app. eexists. reflexivity.
Qed.

Lemma halted_output_is_prefix_witness :
  exists r_ref r_vqe r_iqpe,
    stdout failed_state `prefix_of` completed_output Qminus r_ref r_vqe r_iqpe.
Proof.
  exact (halted_output_is_prefix (failing VQE) Qminus tt
           4%nat "AquaError"%string failed_state failed_run_eq).
Defined.

Lemma seeded_scan_sound h tr : forall seeded,
  seeded_scan h seeded tr = true ->
  forall t1 k a A res t2,
    tr = t1 ++ (k, ELib (ComputeMinimumEigenvalue a A) res) :: t2 ->
    class_at h a <> Some NumPyMinimumEigensolver ->
    seeded = true \/
    exists ke, In ke t1 /\ is_seed_write (snd ke) = true /\ raises (snd ke) = false.
Proof.
  induction tr as [|[k0 ev] tr IH]; intros seeded Hs t1 k a A res t2 Ht Hc.
  - destruct t1; discriminate Ht.
  - destruct t1 as [|x t1]; cbn [app] in Ht.
    + injection Ht as -> -> ->. cbn [seeded_scan] in Hs.
      destruct (class_at h a) as [[]|]; try contradiction;
        apply andb_prop in Hs as [Hs _]; left; exact Hs.
    + injection Ht as Hx Ht. subst x. cbn [seeded_scan] in Hs.
      assert (Hstep : exists s',
        seeded_scan h s' tr = true /\
        (s' = true -> seeded = true \/
           (is_seed_write ev = true /\ raises ev = false))).
      { destruct ev as [x|x v|req res0|p at0|l];
          try (exists (seeded || false); split;
               [exact Hs | rewrite orb_false_r; tauto]).
        destruct req as [md|md nm|c ar kw|nm|a0 A0|p at0 v0|nm].
        - exists (seeded || false). split;
            [exact Hs | rewrite orb_false_r; tauto].
        - exists (seeded || false). split;
            [exact Hs | rewrite orb_false_r; tauto].
        - exists (seeded || false). split;
            [exact Hs | rewrite orb_false_r; tauto].
        - exists (seeded || false). split;
            [exact Hs | rewrite orb_false_r; tauto].
        - exists seeded. split; [|tauto].
          destruct (class_at h a0) as [[]|]; try exact Hs;
            apply andb_prop in Hs as [_ Hs]; exact Hs.
        - eexists. split; [exact Hs|].
          intros Ho. apply orb_prop in Ho as [Ho | Ho]; [tauto|].
          apply andb_prop in Ho as [H1 H2]. right. split; [exact H1|].
          apply negb_true_iff in H2. exact H2.
        - exists (seeded || false). split;
            [exact Hs | rewrite orb_false_r; tauto]. }
      destruct Hstep as (s' & Hs' & Himp).
      destruct (IH s' Hs' t1 k a A res t2 Ht Hc) as [Hy | (ke & Hin & H1 & H2)].
      * destruct (Himp Hy) as [Hseed | [H1 H2]]; [left; exact Hseed|].
        right. exists (k0, ev). split; [left; reflexivity | tauto].
      * right. exists ke. split; [right; exact Hin | tauto].
Qed.

(** In every run, completed or halted, a solver request sent to anything
    but the exact solver comes after a successful write of
    [aqua_globals.random_seed]. *)
Theorem quantum_solvers_run_seeded
    {world : Type} (L : library world) (fsub : Q -> Q -> Q) (w : world)
    o st t1 k a A res t2 :
  run_notebook L fsub w = (o, st) ->
  trace st = t1 ++ (k, ELib (ComputeMinimumEigenvalue a A) res) :: t2 ->
  class_at (heap st) a <> Some NumPyMinimumEigensolver ->
  exists k' v v',
    In (k', ELib (SetAttr "qiskit.aqua.aqua_globals" "random_seed" v) (Ok v')) t1.
Proof.
  intros Hrun Ht Hc.
  assert (Hscan : seeded_scan (heap st) false (trace st) = true).
  { destruct o as [|k0 e0].
    - destruct (run_completed L fsub w st Hrun) as (r1 & r2 & r3 & _ & Hh & Htr).
      rewrite Hh, Htr. reflexivity.
    - pose proof (run_cases_detail L fsub w) as Hd. rewrite Hrun in Hd.
      exact (proj1 (proj2 Hd)). }
  destruct (seeded_scan_sound _ _ _ Hscan _ _ _ _ _ _ Ht Hc)
    as [Hf | ([k' ev] & Hin & Hw & Hr)]; [discriminate Hf|].
  cbn [snd] in Hw, Hr.
  destruct ev as [x|x v|req res0|p at0|l]; try discriminate Hw.
  destruct req as [md|md nm|c ar kw|nm|a0 A0|p at0 v0|nm]; try discriminate Hw.
  cbn [is_seed_write] in Hw. apply andb_prop in Hw as [Hp Ha].
  apply String.eqb_eq in Hp, Ha. subst p at0.
  destruct res0 as [v'|e']; [|discriminate Hr].
  exists k', v0, v'. exact Hin.
Qed.

Lemma failed_iqpe_trace_split :
  trace failed_iqpe_state
  = removelast (trace failed_iqpe_state)
    ++ [(6%nat, ELib (ComputeMinimumEigenvalue 10 H2_op) (Raise "AquaError"))].
Proof. vm_compute. reflexivity. Qed.

Lemma failed_iqpe_solver_class :
  class_at (heap failed_iqpe_state) 10 <> Some NumPyMinimumEigensolver.
Proof. vm_compute. discriminate. Qed.

Lemma quantum_solvers_run_seeded_witness :
  exists k' v v',
    In (k', ELib (SetAttr "qiskit.aqua.aqua_globals" "random_seed" v) (Ok v'))
       (removelast (trace failed_iqpe_state)).
Proof.
  exact (quantum_solvers_run_seeded (failing IQPE) Qminus tt
           (Halted 6 "AquaError") failed_iqpe_state
           (removelast (trace failed_iqpe_state)) 6%nat 10%nat H2_op
           (Raise "AquaError"%string) []
           failed_iqpe_run_eq failed_iqpe_trace_split failed_iqpe_solver_class).
Defined.

(** When the run halts in the IQPE cell, the chained assignment has not
    taken place: [result_vqe] still names the result of the VQE solver and
    [result_iqpe] is not bound. *)
Theorem iqpe_failure_keeps_vqe_result
    {world : Type} (L : library world) (fsub : Q -> Q -> Q) (w : world) e st :
  run_notebook L fsub w = (Halted 6 e, st) ->
  exists a,
    solve_result VQE st = Some a /\
    ns st !! "result_vqe" = Some (VRef a) /\
    ns st !! "result_iqpe" = None.
Proof.
  intros Hrun. pose proof (run_cases_detail L fsub w) as Hd.
  rewrite Hrun in Hd. destruct Hd as (_ & _ & Hk).
  exists 7%nat. exact (Hk eq_refl).
Qed.

Lemma iqpe_failure_keeps_vqe_result_witness :
  exists a,
    solve_result VQE failed_iqpe_state = Some a /\
    ns failed_iqpe_state !! "result_vqe" = Some (VRef a) /\
    ns failed_iqpe_state !! "result_iqpe" = None.
Proof.
  exact (iqpe_failure_keeps_vqe_result (failing IQPE) Qminus tt
           "AquaError"%string failed_iqpe_state failed_iqpe_run_eq).
Defined.

Lemma failed_import_run_eq :
  run_notebook (without_module "qiskit.tools.jupyter") Qminus tt
  = (Halted 7 "ModuleNotFoundError", failed_import_state).
Proof. vm_compute. reflexivity. Qed.

Lemma halted_by_library_witness :
  exists req, In (7%nat, ELib req (Raise "ModuleNotFoundError")) (trace failed_import_state).
Proof.
  exact (halted_by_library (without_module "qiskit.tools.jupyter") Qminus tt
           7%nat "ModuleNotFoundError"%string failed_import_state failed_import_run_eq).
Defined.

(** ** Completed runs, further *)

(** A completed run prints five lines: the real part of the eigenvalue
    each solver returned, and after VQE and after IQPE the rounded
    difference to the value of the exact solver.  Imaginary parts and the
    parameters do not show. *)
Theorem completed_run_output
    {world : Type} (L : library world) (fsub : Q -> Q -> Q) (w : world) st :
  run_notebook L fsub w = (Completed, st) ->
  exists r_ref r_vqe r_iqpe,
    solved_by NumPyMinimumEigensolver st = Some r_ref /\
    solved_by VQE st = Some r_vqe /\
    solved_by IQPE st = Some r_iqpe /\
    stdout st = completed_output fsub r_ref r_vqe r_iqpe.
Proof.
  intros Hrun. destruct (run_completed L fsub w st Hrun) as (r1 & r2 & r3 & Hc).
  destruct (completed_solved_by _ _ _ _ _ Hc) as (S1 & S2 & S3).
  exists r1, r2, r3. repeat (split; [assumption|]).
  destruct Hc as (_ & _ & Ht).
  change (stdout st) with (printed (trace st)). rewrite Ht. reflexivity.
Qed.

Lemma completed_run_output_witness :
  exists r_ref r_vqe r_iqpe,
    solved_by NumPyMinimumEigensolver sample_state = Some r_ref /\
    solved_by VQE sample_state = Some r_vqe /\
    solved_by IQPE sample_state = Some r_iqpe /\
    stdout sample_state = completed_output Qminus r_ref r_vqe r_iqpe.
Proof.
  exact (completed_run_output sample_library Qminus tt sample_state sample_run_eq).
Defined.

(** The initial state handed to IQPE is built, in cell 5, from the very
    circuit template object that VQE optimised and from the optimal
    parameters read off the result VQE returned; VQE itself was given that
    template, the SPSA optimiser capped at ten iterations and the first
    quantum instance. *)
Theorem iqpe_initial_state_from_vqe
    {world : Type} (L : library world) (fsub : Q -> Q -> Q) (w : world) st :
  run_notebook L fsub w = (Completed, st) ->
  exists a_vqe a_iqpe a_res r_vqe template state_in optimizer,
    solver_of VQE st = Some a_vqe /\
    solver_of IQPE st = Some a_iqpe /\
    solve_result VQE st = Some a_res /\
    solved_by VQE st = Some r_vqe /\
    kwarg_object (heap st) a_vqe "var_form"
      = Some (template, Instance TwoLocal [] two_local_kwargs) /\
    kwarg_object (heap st) a_vqe "optimizer"
      = Some (optimizer, Instance SPSA [] [("maxiter", VInt 10)]) /\
    kwarg_object (heap st) a_iqpe "state_in"
      = Some (state_in,
              Instance VarFormBased [VRef template; optimal_parameters r_vqe] []) /\
    In (5%nat, EGetAttr a_res "optimal_parameters") (trace st) /\
    written "var_form" (trace st) = [VRef template] /\
    written "vqe_state" (trace st) = [VRef state_in].
Proof.
  intros Hrun. destruct (run_completed L fsub w st Hrun) as (r1 & r2 & r3 & Hc).
  destruct (completed_solved_by _ _ _ _ _ Hc) as (S1 & S2 & S3).
  pose proof (completed_solve_calls _ _ _ _ _ Hc) as Hs.
  destruct Hc as (_ & Hh & Ht).
  exists 6%nat, 10%nat, 7%nat, r2, 2%nat, 8%nat, 3%nat.
  unfold solver_of, solve_result, solve_call. rewrite Hs, Hh, Ht.
  split; [reflexivity|]. split; [reflexivity|]. split; [reflexivity|].
  split; [exact S2|]. split; [reflexivity|]. split; [reflexivity|].
  split; [reflexivity|]. split; [|split; reflexivity].
  unfold completed_trace. apply in_or_app. right. apply in_or_app. right.
  apply in_or_app. right. apply in_or_app. right. apply in_or_app. left.
  left. reflexivity.
Qed.

Lemma iqpe_initial_state_from_vqe_witness :
  exists a_vqe a_iqpe a_res r_vqe template state_in optimizer,
    solver_of VQE sample_state = Some a_vqe /\
    solver_of IQPE sample_state = Some a_iqpe /\
    solve_result VQE sample_state = Some a_res /\
    solved_by VQE sample_state = Some r_vqe /\
    kwarg_object (heap sample_state) a_vqe "var_form"
      = Some (template, Instance TwoLocal [] two_local_kwargs) /\
    kwarg_object (heap sample_state) a_vqe "optimizer"
      = Some (optimizer, Instance SPSA [] [("maxiter", VInt 10)]) /\
    kwarg_object (heap sample_state) a_iqpe "state_in"
      = Some (state_in,
              Instance VarFormBased [VRef template; optimal_parameters r_vqe] []) /\
    In (5%nat, EGetAttr a_res "optimal_parameters") (trace sample_state) /\
    written "var_form" (trace sample_state) = [VRef template] /\
    written "vqe_state" (trace sample_state) = [VRef state_in].
Proof.
  exact (iqpe_initial_state_from_vqe sample_library Qminus tt sample_state sample_run_eq).
Defined.

Lemma completed_assigned_names fsub r1 r2 r3 :
  assigned_names (completed_trace fsub r1 r2 r3) =
  [ "H2_op"; "npme"; "result"; "ref_value"; "seed"; "var_form"; "spsa"; "backend";
    "qi"; "vqe"; "result_vqe"; "vqe_state"; "qi"; "iqpe"; "result_iqpe";
    "result_vqe" ]%string.
Proof. reflexivity. Qed.

(** In a completed run the only names assigned more than once are [qi]
    and [result_vqe]; every other name keeps the value of its one
    assignment. *)
Theorem only_qi_and_result_vqe_rebound
    {world : Type} (L : library world) (fsub : Q -> Q -> Q) (w : world) st x :
  run_notebook L fsub w = (Completed, st) ->
  (1 < count_occ string_dec (assigned_names (trace st)) x)%nat <->
  x = "qi"%string \/ x = "result_vqe"%string.
Proof.
  intros Hrun. destruct (run_completed L fsub w st Hrun) as (r1 & r2 & r3 & Hc).
  destruct Hc as (_ & _ & Ht). rewrite Ht, completed_assigned_names.
  split.
  - intros Hc.
    assert (Hin : In x [ "H2_op"; "npme"; "result"; "ref_value"; "seed"; "var_form";
                         "spsa"; "backend"; "qi"; "vqe"; "result_vqe"; "vqe_state";
                         "qi"; "iqpe"; "result_iqpe"; "result_vqe" ]%string).
    { apply (count_occ_In string_dec). lia. }
    cbn [In] in Hin.
    repeat (destruct Hin as [<- | Hin];
            [first [left; reflexivity | right; reflexivity
                   | exfalso; vm_compute in Hc; lia] |]).
    destruct Hin.
  - intros [-> | ->]; vm_compute; lia.
Qed.

Lemma only_qi_and_result_vqe_rebound_witness :
  (1 < count_occ string_dec (assigned_names (trace sample_state)) "qi")%nat <->
  "qi"%string = "qi"%string \/ "qi"%string = "result_vqe"%string.
Proof.
  exact (only_qi_and_result_vqe_rebound sample_library Qminus tt sample_state
           "qi"%string sample_run_eq).
Defined.


(** ** Formatting, further *)

(** Two values that print alike have the same sign and differ by at most
    one unit of the fifth decimal. *)
Theorem same_print_same_value x y :
  format_5f x = format_5f y ->
  is_negative x = is_negative y /\ (Qabs (x - y) <= 1 # 100000)%Q.
Proof.
  intros H.
  assert (Hy : (0 <= Qabs y * 100000)%Q).
  { pose proof (Qabs_nonneg y). Lqa.nra. }
  pose proof (round_half_even_nonneg _ Hy) as Hn.
  pose proof (round_half_even_bound (Qabs y * 100000)%Q) as By.
  unfold format_5f in H at 2.
  apply format_5f_sound in H as [Hs Bx]; [|exact Hn].
  split; [exact Hs|].
  set (n := inject_Z (round_half_even (Qabs y * 100000)%Q)) in *. clearbody n.
  apply Qabs_Qle_condition in Bx, By.
  destruct (is_negative y) eqn:Ey.
  - apply is_negative_true in Hs, Ey.
    rewrite (Qabs_neg x) in Bx by Lqa.lra. rewrite (Qabs_neg y) in By by Lqa.lra.
    apply Qabs_Qle_condition. split; Lqa.lra.
  - apply is_negative_false in Hs, Ey.
    rewrite (Qabs_pos x) in Bx by Lqa.lra. rewrite (Qabs_pos y) in By by Lqa.lra.
    apply Qabs_Qle_condition. split; Lqa.lra.
Qed.

Lemma same_print_same_value_witness :
  is_negative (-1.857275030202382)%Q = is_negative (-1.85728)%Q /\
  (Qabs (-1.857275030202382 - -1.85728) <= 1 # 100000)%Q.
Proof.
  apply same_print_same_value. vm_compute. reflexivity.
Defined.

(** ** Shapes of operators and matrices *)

Lemma length_flat_map_const {A B : Type} (f : A -> list B) (c : nat) (l : list A) :
  (forall x, In x l -> length (f x) = c) ->
  length (flat_map f l) = (length l * c)%nat.
Proof.
  induction l as [|x l IH]; intros H; [reflexivity|].
  cbn [flat_map length]. rewrite length_app, (H x (or_introl eq_refl)), IH.
  - lia.
  - intros y Hy. apply H. right. exact Hy.
Qed.

Lemma square_kron a b A B :
  square a A -> square b B -> square (a * b) (kron A B).
Proof.
  intros [HA1 HA2] [HB1 HB2]. rewrite Forall_forall in HA2, HB2.
  unfold kron. split.
  - rewrite (length_flat_map_const _ b).
    + rewrite HA1. reflexivity.
    + intros ra _. rewrite length_map. exact HB1.
  - rewrite Forall_forall. intros row Hrow.
    apply list_elem_of_In in Hrow.
    apply in_flat_map in Hrow as (ra & Hra & Hrow).
    apply in_map_iff in Hrow as (rb & <- & Hrb).
    rewrite (length_flat_map_const _ b).
    + rewrite (HA2 ra) by (apply list_elem_of_In; exact Hra). reflexivity.
    + intros x _. rewrite length_map. apply HB2. apply list_elem_of_In. exact Hrb.
Qed.

Lemma square_pauli p : square 2 (pauli_matrix p).
Proof. destruct p; split; try reflexivity; repeat constructor. Qed.

Lemma square_string ps : square (2 ^ length ps) (string_matrix ps).
Proof.
  induction ps as [|p ps IH].
  - split; [reflexivity | repeat constructor].
  - cbn [string_matrix length]. rewrite Nat.pow_succ_r'.
    apply square_kron; [apply square_pauli | exact IH].
Qed.

Lemma square_scale n c M : square n M -> square n (mat_scale c M).
Proof.
  intros [H1 H2]. unfold mat_scale. split; [rewrite length_map; exact H1|].
  rewrite Forall_forall in *. intros row Hrow.
  apply list_elem_of_In, in_map_iff in Hrow as (r & <- & Hr).
  rewrite length_map. apply H2. apply list_elem_of_In. exact Hr.
Qed.

Lemma square_zero n : square n (mat_zero n).
Proof.
  unfold mat_zero. split; [apply repeat_length|].
  rewrite Forall_forall. intros row Hrow.
  apply list_elem_of_In, repeat_spec in Hrow. subst row. apply repeat_length.
Qed.

Lemma square_add n A B : square n A -> square n B -> square n (mat_add A B).
Proof.
  intros [HA1 HA2] [HB1 HB2]. unfold mat_add. split.
  - rewrite length_zip_with. lia.
  - clear HA1 HB1. revert B HB2.
    induction HA2 as [|ra A Hra HA IH]; intros B HB; [constructor|].
    destruct HB as [|rb B Hrb HB]; [constructor|].
    cbn [zip_with]. constructor; [rewrite length_zip_with; lia | apply IH; exact HB].
Qed.

Lemma square_red n M : square n M -> square n (map (map cq_red) M).
Proof.
  intros [H1 H2]. split; [rewrite length_map; exact H1|].
  rewrite Forall_forall in *. intros row Hrow.
  apply list_elem_of_In, in_map_iff in Hrow as (r & <- & Hr).
  rewrite length_map. apply H2. apply list_elem_of_In. exact Hr.
Qed.

(** The matrix of an operator over [n] qubits is square of side [2 ^ n]:
    adding the matrices of its strings cuts nothing off. *)
Theorem to_matrix_square n A :
  all_qubits n A = true -> square (2 ^ n) (to_matrix n A).
Proof.
  unfold all_qubits, to_matrix. intros H. apply square_red.
  induction A as [|t A IH]; cbn [fold_right].
  - apply square_zero.
  - cbn [forallb] in H. apply andb_prop in H as [Ht HA].
    apply Nat.eqb_eq in Ht.
    apply square_add; [|apply IH; exact HA].
    unfold term_matrix. apply square_scale. rewrite <- Ht. apply square_string.
Qed.

Lemma to_matrix_square_witness : square (2 ^ 2) (to_matrix 2 H2_op).
Proof. apply to_matrix_square. reflexivity. Defined.


(** ** From the spectrum to the printed reference line *)

Lemma round_half_even_unique x n :
  (inject_Z n - (1 # 2) < x)%Q -> (x < inject_Z n + (1 # 2))%Q ->
  round_half_even x = n.
Proof.
  intros Hlo Hhi. unfold round_half_even.
  pose proof (Qfloor_le x) as Fl. pose proof (Qlt_floor x) as Fh.
  rewrite inject_Z_plus in Fh. change (inject_Z 1) with 1%Q in Fh.
  set (f := Qfloor x) in *. clearbody f.
  assert (Hf : (n - 1 <= f <= n)%Z).
  { assert (H1 : (inject_Z f < inject_Z n + (1 # 2))%Q) by Lqa.lra.
    assert (H2 : (inject_Z n - (1 # 2) < inject_Z f + 1)%Q) by Lqa.lra.
    unfold Qlt, Qplus, Qminus, Qopp, inject_Z in H1, H2.
    cbn in H1, H2. lia. }
  assert (Hcase : f = n \/ f = (n - 1)%Z) by lia.
  destruct Hcase as [-> | ->].
  - destruct (Qcompare (x - inject_Z n) (1 # 2)) eqn:Hc.
    + apply Qeq_alt in Hc. exfalso. Lqa.lra.
    + reflexivity.
    + apply Qgt_alt in Hc. exfalso. Lqa.lra.
  - assert (Hi : (inject_Z (n - 1) == inject_Z n - 1)%Q).
    { unfold Zminus. rewrite inject_Z_plus. reflexivity. }
    destruct (Qcompare (x - inject_Z (n - 1)) (1 # 2)) eqn:Hc.
    + apply Qeq_alt in Hc. exfalso. Lqa.lra.
    + apply Qlt_alt in Hc. exfalso. Lqa.lra.
    + lia.
Qed.

(** A negative value strictly within half a hundred-thousandth of [- n]
    prints as minus [n] hundred-thousandths. *)
Lemma format_5f_near_negative x n :
  (x < 0)%Q ->
  (- inject_Z n - (1 # 2) < x * 100000)%Q -> (x * 100000 < - inject_Z n + (1 # 2))%Q ->
  format_5f x = fixed5 true n.
Proof.
  intros Hx Hlo Hhi. unfold format_5f. f_equal.
  - unfold is_negative. destruct (Qcompare x 0) eqn:Hc; [| reflexivity |].
    + apply Qeq_alt in Hc. exfalso. Lqa.lra.
    + apply Qgt_alt in Hc. exfalso. Lqa.lra.
  - apply round_half_even_unique; rewrite (Qabs_neg x) by Lqa.lra; Lqa.lra.
Qed.

Lemma Q2R_lt_inv (x y : Q) : (Q2R x < Q2R y)%R -> (x < y)%Q.
Proof. apply Qreals.Rlt_Qlt. Qed.

Lemma printed_m1_85728 : fixed5 true 185728 = "-1.85728"%string.
Proof. vm_compute. reflexivity. Qed.

Lemma H2_ground_margin : (-1.857284 < H2_ground < -1.857275001)%R.
Proof.
  pose proof H2_radius_bounds as Hr.
  unfold H2_ground, inner_low, inner_mid.
  set (s := inner_radius _ _ _) in *.
  unfold H2_inner1, H2_inner2, Q2R. cbn [Qnum Qden]. lra.
Qed.

(** The reference line of the recorded output is the one an accurate
    exact solver produces: if the real part the exact solver returns is
    within 1e-9 of the lowest eigenvalue of [H2_op], a completed run
    starts its output with [Reference value: -1.85728]. *)
Theorem accurate_exact_solver_prints_recorded_line
    {world : Type} (L : library world) (fsub : Q -> Q -> Q) (w : world) st r :
  run_notebook L fsub w = (Completed, st) ->
  solved_by NumPyMinimumEigensolver st = Some r ->
  (Rabs (Q2R (fst (eigenvalue r)) - H2_ground) <= 0.000000001)%R ->
  nth_error (stdout st) 0 = nth_error recorded_output 0.
Proof.
  intros Hrun Hr Hacc.
  destruct (run_completed L fsub w st Hrun) as (r1 & r2 & r3 & Hc).
  destruct (completed_solved_by _ _ _ _ _ Hc) as (S1 & _ & _).
  rewrite S1 in Hr. injection Hr as ->.
  rewrite (completed_stdout _ _ _ _ _ Hc).
  cbn [nth_error recorded_output]. f_equal.
  change "Reference value: -1.85728"%string
    with ("Reference value: " ++ "-1.85728")%string.
  f_equal. rewrite <- printed_m1_85728.
  pose proof H2_ground_margin as Hb.
  set (q := fst (eigenvalue r)) in *. clearbody q.
  assert (Hd : (-0.000000001 <= Q2R q - H2_ground <= 0.000000001)%R).
  { unfold Rabs in Hacc. destruct (Rcase_abs _) in Hacc; lra. }
  assert (Hlo : (Q2R (-1857285 # 1000000) < Q2R q)%R).
  { unfold Q2R at 1. cbn [Qnum Qden]. lra. }
  assert (Hhi : (Q2R q < Q2R (-1857275 # 1000000))%R).
  { unfold Q2R at 2. cbn [Qnum Qden]. lra. }
  apply Q2R_lt_inv in Hlo, Hhi.
  apply format_5f_near_negative; unfold inject_Z; Lqa.lra.
Qed.

Lemma H2_radius_tight :
  (0.8161818886 < inner_radius (Q2R H2_inner1) (Q2R H2_inner2) (Q2R H2_cross)
   < 0.8161818887)%R.
Proof.
  unfold inner_radius, inner_half, H2_inner1, H2_inner2, H2_cross, Q2R.
  cbn [Qnum Qden].
  split.
  - match goal with |- (_ < sqrt ?x)%R =>
      assert (H : (sqrt (0.8161818886 * 0.8161818886) < sqrt x)%R)
        by (apply sqrt_lt_1_alt; lra)
    end.
    rewrite sqrt_square in H by lra. exact H.
  - match goal with |- (sqrt ?x < _)%R =>
      assert (H : (sqrt x < sqrt (0.8161818887 * 0.8161818887))%R)
        by (apply sqrt_lt_1_alt; split; [nra | lra])
    end.
    rewrite sqrt_square in H by lra. exact H.
Qed.

Lemma sample_ref_accurate :
  (Rabs (Q2R (fst (eigenvalue sample_ref)) - H2_ground) <= 0.000000001)%R.
Proof.
  pose proof H2_radius_tight as Hr.
  unfold H2_ground, inner_low, inner_mid.
  set (s := inner_radius _ _ _) in *.
  unfold sample_ref, eigenvalue, fst, H2_inner1, H2_inner2, Q2R.
  cbn [Qnum Qden].
  unfold Rabs. destruct (Rcase_abs _); lra.
Qed.

Lemma sample_solved_by_ref :
  solved_by NumPyMinimumEigensolver sample_state = Some sample_ref.
Proof. vm_compute. reflexivity. Qed.

Lemma accurate_exact_solver_prints_recorded_line_witness :
  nth_error (stdout sample_state) 0 = nth_error recorded_output 0.
Proof.
  exact (accurate_exact_solver_prints_recorded_line sample_library Qminus tt
           sample_state sample_ref sample_run_eq sample_solved_by_ref
           sample_ref_accurate).
Defined.
